(** * tools/pin-cpu.py: pinning the vCPU threads of a VM to host cores

    A shallow embedding of the script [tools/pin-cpu.py] and of the small
    part of Python 3 it runs on (exceptions, subscripting, [int], [range],
    [sorted], [try]/[except]), followed by the properties of the script.

    The three libraries the script calls ([qmp], [numa], [psutil]) are not
    part of the repository: they appear as the fields of a [host] record,
    so every theorem holds for whatever these libraries answer. *)

From Stdlib Require Import ZArith List String Ascii Bool Lia.
From Stdlib Require Import DecimalString Sorted Permutation.
Import ListNotations.

Local Open Scope string_scope.
Local Open Scope list_scope.
Local Open Scope Z_scope.

Set Warnings "-register-all".

(** ** Python values *)

(** The values the script handles: what [json] decodes a QMP reply to
    (without non-integer numbers, which a thread id never is), plus the two
    objects named in the handler of [pin_proc]: the builtin [print] and the
    stream [sys.stderr]. A dict is kept as an association list in insertion
    order. *)
Inductive pyval : Type :=
| PNone
| PBool (b : bool)
| PInt (z : Z)
| PStr (s : string)
| PList (l : list pyval)
| PDict (d : list (string * pyval))
| PBuiltin (name : string)
| PFile (name : string).

Definition type_name (v : pyval) : string :=
  match v with
  | PNone => "NoneType"
  | PBool _ => "bool"
  | PInt _ => "int"
  | PStr _ => "str"
  | PList _ => "list"
  | PDict _ => "dict"
  | PBuiltin _ => "builtin_function_or_method"
  | PFile _ => "_io.TextIOWrapper"
  end.

(** ** Exceptions *)

Inductive exn_class : Type :=
| ValueError
| UnicodeError          (* a subclass of ValueError *)
| TypeError
| IndexError
| KeyError
| OSError
| ConnectionError       (* a subclass of OSError *)
| ImportError
| NoSuchProcess         (* psutil.NoSuchProcess, a subclass of psutil.Error *)
| ZombieProcess         (* psutil.ZombieProcess, a subclass of NoSuchProcess *)
| AccessDenied.         (* psutil.AccessDenied, a subclass of psutil.Error *)

(** An exception object: its class, its message and its [__context__], the
    exception that was being handled when it was raised. *)
Inductive exn : Type :=
| Exn (cls : exn_class) (msg : string) (context : option exn).

Definition exn_cls (e : exn) : exn_class := let (c, _, _) := e in c.
Definition exn_msg (e : exn) : string := let (_, m, _) := e in m.
Definition exn_context (e : exn) : option exn := let (_, _, c) := e in c.

Definition new_exn (c : exn_class) (m : string) : exn := Exn c m None.

(** [isinstance(e, ValueError)]: what [except ValueError] matches. *)
Definition is_ValueError (c : exn_class) : bool :=
  match c with
  | ValueError | UnicodeError => true
  | _ => false
  end.

(** Raising [e'] while [e] is being handled sets [e'.__context__ = e]. *)
Definition set_context (e' e : exn) : exn :=
  Exn (exn_cls e') (exn_msg e') (Some e).

(** ** Results and the script monad *)

(** What an expression or a library call gives: a value or an exception
    (of a class derived from [Exception]). *)
Inductive result (A : Type) : Type :=
| Ok (a : A)
| Raise (e : exn).
Arguments Ok {A} a.
Arguments Raise {A} e.

(** How a statement ends: normally, with an exception on its way up, or
    with the [SystemExit] of [sys.exit(code)], which is no [Exception] and
    which [except ValueError] lets through. *)
Inductive flow (A : Type) : Type :=
| Normal (a : A)
| Raised (e : exn)
| Exiting (code : Z).
Arguments Normal {A} a.
Arguments Raised {A} e.
Arguments Exiting {A} code.

Definition flow_of {A} (r : result A) : flow A :=
  match r with
  | Ok a => Normal a
  | Raise e => Raised e
  end.

(** What a run does to the outside, in order. [EAffinity pid cpus] is the
    call [psutil.Process(pid).cpu_affinity(cpus)], whether it succeeds or
    not; [EStderr] is a line the script itself writes to [sys.stderr]. *)
Inductive event : Type :=
| EConnect (addr : string)
| ECmd (name : string)
| EStdout (v : pyval)
| EStderr (line : string)
| EAffinity (pid : Z) (cpus : list Z).

(** The state threaded through a run: the events so far and the number of
    QMP commands already sent on the connection. *)
Record world : Type := mkWorld {
  trace : list event;
  sent : nat
}.

Definition world0 : world := mkWorld [] 0.

Definition emit (ev : event) (w : world) : world :=
  mkWorld (trace w ++ [ev]) (sent w).

Definition M (A : Type) : Type := world -> flow A * world.

Definition ret {A} (a : A) : M A := fun w => (Normal a, w).

Definition bind {A B} (m : M A) (k : A -> M B) : M B :=
  fun w =>
    match m w with
    | (Normal a, w') => k a w'
    | (Raised e, w') => (Raised e, w')
    | (Exiting c, w') => (Exiting c, w')
    end.

Definition lift {A} (r : result A) : M A := fun w => (flow_of r, w).

Declare Scope py_scope.
Delimit Scope py_scope with py.
Notation "x <- m ;; k" := (bind m (fun x => k))
  (at level 61, m at next level, right associativity) : py_scope.
Notation "m ;;; k" := (bind m (fun _ => k))
  (at level 61, right associativity) : py_scope.
Local Open Scope py_scope.

(** [try: body / except ValueError as e: handler e]. Any other exception
    passes through, and so does [SystemExit]; an exception raised by the
    handler carries the handled one as its context. *)
Definition try_except_ValueError {A} (body : M A) (handler : exn -> M A)
  : M A :=
  fun w =>
    match body w with
    | (Normal a, w') => (Normal a, w')
    | (Exiting c, w') => (Exiting c, w')
    | (Raised e, w') =>
        if is_ValueError (exn_cls e) then
          match handler e w' with
          | (Normal a, w'') => (Normal a, w'')
          | (Raised e', w'') => (Raised (set_context e' e), w'')
          | (Exiting c, w'') => (Exiting c, w'')
          end
        else (Raised e, w')
    end.

(** [for x in l: body x]. *)
Fixpoint for_each {A} (l : list A) (body : A -> M unit) : M unit :=
  match l with
  | [] => ret tt
  | x :: l' => body x ;;; for_each l' body
  end.

(** [sys.exit(code)]. *)
Definition sys_exit {A} (code : Z) : M A := fun w => (Exiting code, w).

(** ** Builtins *)

(** [str(z)] for an int. *)
Definition str_of_int (z : Z) : string :=
  NilZero.string_of_int (Z.to_int z).

(** [range(n)] for an int [n]: [0, 1, ..., n-1], empty when [n <= 0]. *)
Definition py_range (n : Z) : list Z :=
  map Z.of_nat (seq 0 (Z.to_nat n)).

(** [l[i]] on a list, with Python's negative indices. *)
Definition list_getitem {A} (l : list A) (i : Z) : result A :=
  let len := Z.of_nat (List.length l) in
  let j := if i <? 0 then i + len else i in
  if (j <? 0) || (len <=? j) then
    Raise (new_exn IndexError "list index out of range")
  else
    match nth_error l (Z.to_nat j) with
    | Some a => Ok a
    | None => Raise (new_exn IndexError "list index out of range")
    end.

Fixpoint dict_get (d : list (string * pyval)) (k : string) : option pyval :=
  match d with
  | [] => None
  | (k', v) :: d' => if String.eqb k' k then Some v else dict_get d' k
  end.

(** [v[i]] for an int index [i]. A decoded JSON object has string keys
    only, so an int key is never found in it. *)
Definition getitem_int (v : pyval) (i : Z) : result pyval :=
  match v with
  | PList l => list_getitem l i
  | PStr s =>
      match list_getitem (list_ascii_of_string s) i with
      | Ok c => Ok (PStr (String c EmptyString))
      | Raise _ => Raise (new_exn IndexError "string index out of range")
      end
  | PDict _ => Raise (new_exn KeyError (str_of_int i))
  | _ => Raise (new_exn TypeError
                  ("'" ++ type_name v ++ "' object is not subscriptable")
                  %string)
  end.

(** [v[k]] for a str key [k]. *)
Definition getitem_str (v : pyval) (k : string) : result pyval :=
  match v with
  | PDict d =>
      match dict_get d k with
      | Some x => Ok x
      | None => Raise (new_exn KeyError k)
      end
  | PList _ =>
      Raise (new_exn TypeError
               "list indices must be integers or slices, not str")
  | PStr _ =>
      Raise (new_exn TypeError "string indices must be integers, not 'str'")
  | _ => Raise (new_exn TypeError
                  ("'" ++ type_name v ++ "' object is not subscriptable")
                  %string)
  end.

(** *** [int] *)

(** The ASCII whitespace [int] strips: tab, newline, vertical tab, form
    feed, carriage return and space. *)
Definition is_space (c : ascii) : bool :=
  let n := nat_of_ascii c in
  ((9 <=? n) && (n <=? 13) || (n =? 32))%nat.

Definition digit_of (c : ascii) : option Z :=
  let n := nat_of_ascii c in
  if ((48 <=? n) && (n <=? 57))%nat then Some (Z.of_nat n - 48) else None.

Fixpoint lstrip (s : list ascii) : list ascii :=
  match s with
  | c :: s' => if is_space c then lstrip s' else s
  | [] => []
  end.

Definition strip (s : list ascii) : list ascii :=
  rev (lstrip (rev (lstrip s))).

(** Decimal digits, single underscores allowed between two digits.
    [sep] tells that a digit must come next. *)
Fixpoint digits (s : list ascii) (acc : Z) (sep : bool) : option Z :=
  match s with
  | [] => if sep then None else Some acc
  | c :: s' =>
      match digit_of c with
      | Some d => digits s' (10 * acc + d) false
      | None =>
          if Ascii.eqb c "_"%char && negb sep then digits s' acc true
          else None
      end
  end.

(** [int(s)] for a str of ASCII characters, base 10. *)
Definition int_of_str (s : string) : result Z :=
  let bad :=
    Raise (new_exn ValueError
             ("invalid literal for int() with base 10: '" ++ s ++ "'")%string)
  in
  match strip (list_ascii_of_string s) with
  | "+"%char :: r =>
      match digits r 0 true with Some z => Ok z | None => bad end
  | "-"%char :: r =>
      match digits r 0 true with Some z => Ok (- z) | None => bad end
  | r =>
      match digits r 0 true with Some z => Ok z | None => bad end
  end.

(** [int(v)]. *)
Definition py_int (v : pyval) : result Z :=
  match v with
  | PInt z => Ok z
  | PBool b => Ok (if b then 1 else 0)
  | PStr s => int_of_str s
  | _ => Raise (new_exn TypeError
                  ("int() argument must be a string, a bytes-like object or " ++
                   "a real number, not '" ++ type_name v ++ "'")%string)
  end.

(** *** [>>] *)

Definition as_int (v : pyval) : option Z :=
  match v with
  | PInt z => Some z
  | PBool b => Some (if b then 1 else 0)
  | _ => None
  end.

(** [a >> b]: defined on ints only. *)
Definition py_rshift (a b : pyval) : result pyval :=
  match as_int a, as_int b with
  | Some x, Some y =>
      if y <? 0 then Raise (new_exn ValueError "negative shift count")
      else Ok (PInt (Z.shiftr x y))
  | _, _ =>
      Raise (new_exn TypeError
               ("unsupported operand type(s) for >>: '" ++ type_name a ++
                "' and '" ++ type_name b ++ "'")%string)
  end.

(** *** [sorted] *)

Fixpoint insert_sorted (x : Z) (l : list Z) : list Z :=
  match l with
  | [] => [x]
  | y :: l' => if x <=? y then x :: l else y :: insert_sorted x l'
  end.

(** [sorted(l)] on ints: ascending. *)
Definition sorted (l : list Z) : list Z :=
  fold_right insert_sorted [] l.

(** *** Two-argument [range] and loops with a local *)

(** [range(lo, hi)]. *)
Definition py_range2 (lo hi : Z) : list Z :=
  map (fun k => lo + Z.of_nat k) (seq 0 (Z.to_nat (hi - lo))).

(** [for x in l: s = body x s], for a loop that updates a local [s]. *)
Fixpoint for_fold {A S} (l : list A) (s : S) (body : A -> S -> M S) : M S :=
  match l with
  | [] => ret s
  | x :: l' => s' <- body x s ;; for_fold l' s' body
  end.

(** ** The host: what the three external libraries answer *)

(** [qmp_connect addr] is the outcome of [qmp.QMPQuery(addr)];
    [qmp_reply k name] is what the [k]-th command sent on the connection
    returns when it is [name] (two identical commands may be answered
    differently); [numa_max_node] and [numa_node_to_cpus] are
    [numa.get_max_node()] and [numa.node_to_cpus(node)], the latter in the
    iteration order of the set it returns; [psutil_cpu_affinity pid cpus]
    is the outcome of [psutil.Process(pid).cpu_affinity(cpus)]. The three
    [import]s are taken to succeed. *)
Record host : Type := mkHost {
  qmp_connect : string -> result unit;
  qmp_reply : nat -> string -> result pyval;
  numa_max_node : Z;
  numa_node_to_cpus : Z -> list Z;
  psutil_cpu_affinity : Z -> list Z -> result unit
}.

Definition QMPQuery (h : host) (addr : string) : M unit :=
  fun w => (flow_of (qmp_connect h addr), emit (EConnect addr) w).

Definition query_cmd (h : host) (name : string) : M pyval :=
  fun w => (flow_of (qmp_reply h (sent w) name),
            mkWorld (trace w ++ [ECmd name]) (S (sent w))).

Definition cpu_affinity (h : host) (pid : Z) (cpus : list Z) : M unit :=
  fun w => (flow_of (psutil_cpu_affinity h pid cpus),
            emit (EAffinity pid cpus) w).

(** [print(v)]. *)
Definition py_print (v : pyval) : M unit :=
  fun w => (Normal tt, emit (EStdout v) w).

(** ** The script *)

(** Lines 6-14.
<<
def onlinecpu():
    import numa

    o_cpus = []
    for node in range(0,numa.get_max_node()+1):
        for cpu in sorted(numa.node_to_cpus(node)):
            o_cpus.append(cpu)

    return o_cpus
>> *)
Definition onlinecpu (h : host) : M (list Z) :=
  let o_cpus := [] in
  for_fold (py_range2 0 (numa_max_node h + 1)) o_cpus (fun node o_cpus =>
    for_fold (sorted (numa_node_to_cpus h node)) o_cpus (fun cpu o_cpus =>
      ret (o_cpus ++ [cpu]))).

(** Lines 17-24.
<<
def pin_proc(pid, core):
    import psutil

    try:
        psutil.Process(pid).cpu_affinity([core])
    except ValueError as e:
        print >> sys.stderr, e
        sys.exit(1)
>>
    Under Python 3 the first statement of the handler is an expression
    statement, the tuple [(print >> sys.stderr, e)], whose first component
    applies [>>] to the builtin [print] and the stream [sys.stderr]. *)
Definition pin_proc (h : host) (pid core : Z) : M unit :=
  try_except_ValueError
    (cpu_affinity h pid [core])
    (fun e =>
       _ <- lift (py_rshift (PBuiltin "print") (PFile "<stderr>")) ;;
       sys_exit 1).

(** Line 36, the body of the loop: the arguments of [pin_proc] are
    evaluated left to right, then it is called. *)
Definition loop_body (h : host) (response : pyval) (o_cpus : list Z) (i : Z)
  : M unit :=
  entry <- lift (getitem_int response i) ;;
  tid <- lift (getitem_str entry "thread-id") ;;
  pid <- lift (py_int tid) ;;
  core <- lift (list_getitem o_cpus i) ;;
  pin_proc h pid core.

(** Lines 30-36, with [argv] for [sys.argv].
<<
query = qmp.QMPQuery("localhost:%s" % (sys.argv[1]))
print(query.cmd("query-cpus-fast"))
response = query.cmd("query-cpus-fast")['return']
o_cpus = [x for x in range(int(sys.argv[2]))]

for i in range(int(sys.argv[2])):
    pin_proc(int(response[i]['thread-id']), o_cpus[i])
>> *)
Definition main (h : host) (argv : list string) : M unit :=
  port <- lift (list_getitem argv 1) ;;
  QMPQuery h ("localhost:" ++ port)%string ;;;
  r <- query_cmd h "query-cpus-fast" ;;
  py_print r ;;;
  r <- query_cmd h "query-cpus-fast" ;;
  response <- lift (getitem_str r "return") ;;
  a <- lift (list_getitem argv 2) ;;
  n <- lift (int_of_str a) ;;
  let o_cpus := map (fun x => x) (py_range n) in
  a <- lift (list_getitem argv 2) ;;
  n <- lift (int_of_str a) ;;
  for_each (py_range n) (loop_body h response o_cpus).

(** ** Running the script *)

(** How the interpreter ends a run: normally, through [sys.exit], or on an
    exception nobody caught, whose traceback (the exception and the chain
    of its contexts) it writes to the diagnostic stream. *)
Inductive ending : Type :=
| Finished
| Exited (code : Z)
| Uncaught (e : exn).

Definition ending_of (r : flow unit) : ending :=
  match r with
  | Normal _ => Finished
  | Exiting c => Exited c
  | Raised e => Uncaught e
  end.

Definition exit_status (e : ending) : Z :=
  match e with
  | Finished => 0
  | Exited c => c
  | Uncaught _ => 1
  end.

(** [python3 pin-cpu.py argv[1] argv[2] ...] on host [h]: the events of
    the run and its ending. *)
Definition python3 (h : host) (argv : list string) : list event * ending :=
  let (r, w) := main h argv world0 in (trace w, ending_of r).

Definition events_of (h : host) (argv : list string) : list event :=
  fst (python3 h argv).

Definition status_of (h : host) (argv : list string) : Z :=
  exit_status (snd (python3 h argv)).

(** The affinity-set calls of a trace, in order, as (thread id, cpu list). *)
Fixpoint affinity_calls (t : list event) : list (Z * list Z) :=
  match t with
  | [] => []
  | EAffinity pid cpus :: t' => (pid, cpus) :: affinity_calls t'
  | _ :: t' => affinity_calls t'
  end.

(** The QMP commands of a trace, in order. *)
Fixpoint commands (t : list event) : list string :=
  match t with
  | [] => []
  | ECmd name :: t' => name :: commands t'
  | _ :: t' => commands t'
  end.

(** The lines the script itself wrote to [sys.stderr]. *)
Fixpoint stderr_lines (t : list event) : list string :=
  match t with
  | [] => []
  | EStderr l :: t' => l :: stderr_lines t'
  | _ :: t' => stderr_lines t'
  end.

(** ** A concrete host *)

(** psutil on Linux, from its documentation: [Process(pid)] raises
    [ValueError] for a negative pid and [NoSuchProcess] for a pid that does
    not exist; [cpu_affinity] raises [ValueError] for the first CPU number
    the host does not have (the message goes on with the eligible CPUs,
    left out here). [pids] are the existing thread ids, [ncpus] the number
    of CPUs. *)
Definition psutil_linux (pids : list Z) (ncpus : Z) (pid : Z) (cpus : list Z)
  : result unit :=
  if pid <? 0 then
    Raise (new_exn ValueError
             ("pid must be a positive integer (got " ++ str_of_int pid ++ ")")
             %string)
  else if negb (existsb (Z.eqb pid) pids) then
    Raise (new_exn NoSuchProcess
             ("process PID not found (pid=" ++ str_of_int pid ++ ")")%string)
  else
    match find (fun c => negb ((0 <=? c) && (c <? ncpus))) cpus with
    | None => Ok tt
    | Some c =>
        Raise (new_exn ValueError
                 ("invalid CPU number " ++ str_of_int c)%string)
    end.

(** The reply of [query-cpus-fast] for the given thread ids. *)
Definition cpus_fast_reply (tids : list Z) : pyval :=
  PDict [("return",
          PList (map (fun t => PDict [("cpu-index", PInt 0);
                                      ("thread-id", PInt t)]) tids))].

(** A host whose VM answers every command with the vCPU threads [tids],
    whose NUMA nodes are [nodes] (node [k] holds the CPUs [nth k nodes])
    and whose threads [pids] exist, on [ncpus] CPUs. *)
Definition simple_host (tids : list Z) (nodes : list (list Z))
    (pids : list Z) (ncpus : Z) : host :=
  mkHost (fun _ => Ok tt)
         (fun _ _ => Ok (cpus_fast_reply tids))
         (Z.of_nat (List.length nodes) - 1)
         (fun node => nth (Z.to_nat node) nodes [])
         (psutil_linux pids ncpus).


(** ** Vocabulary of the statements *)

(** The node indices [0 .. max_node], ascending. *)
Definition numa_nodes (h : host) : list Z :=
  map Z.of_nat (seq 0 (Z.to_nat (numa_max_node h + 1))).

(** The core order as the specification words it: node after node, the
    CPUs of each node ascending. *)
Definition numa_order (h : host) : list Z :=
  List.concat
    (map (fun node => sorted (numa_node_to_cpus h node)) (numa_nodes h)).

(** The same host with another NUMA topology. *)
Definition set_numa (h : host) (max_node : Z) (cpus : Z -> list Z) : host :=
  mkHost (qmp_connect h) (qmp_reply h) max_node cpus (psutil_cpu_affinity h).

(** The thread id of one vCPU record: [int(entry['thread-id'])]. *)
Definition tid_of (entry : pyval) : result Z :=
  match getitem_str entry "thread-id" with
  | Ok tid => py_int tid
  | Raise e => Raise e
  end.

(** The arguments line 36 computes for [pin_proc] at index [i]. *)
Definition call_at (response : pyval) (o_cpus : list Z) (i : Z)
  : result (Z * Z) :=
  match getitem_int response i with
  | Raise e => Raise e
  | Ok entry =>
      match tid_of entry with
      | Raise e => Raise e
      | Ok pid =>
          match list_getitem o_cpus i with
          | Raise e => Raise e
          | Ok core => Ok (pid, core)
          end
      end
  end.

(** The exception [print >> sys.stderr] raises. *)
Definition rshift_error : exn :=
  new_exn TypeError
    ("unsupported operand type(s) for >>: 'builtin_function_or_method' " ++
     "and '_io.TextIOWrapper'")%string.

(** What [pin_proc h pid core] returns, as a function of what psutil
    answers. *)
Definition pin_result (h : host) (pid core : Z) : flow unit :=
  match psutil_cpu_affinity h pid [core] with
  | Ok _ => Normal tt
  | Raise e =>
      if is_ValueError (exn_cls e) then Raised (set_context rshift_error e)
      else Raised e
  end.

(** The loop of lines 35-36 over the indices [l], as a summary: the
    affinity-set calls it makes and how it ends. It is related to the loop
    itself by [for_each_loop_body]. *)
Fixpoint pin_all (h : host) (response : pyval) (o_cpus : list Z) (l : list Z)
  : list (Z * list Z) * flow unit :=
  match l with
  | [] => ([], Normal tt)
  | i :: l' =>
      match call_at response o_cpus i with
      | Raise e => ([], Raised e)
      | Ok (pid, core) =>
          match pin_result h pid core with
          | Normal _ =>
              let (calls, r) := pin_all h response o_cpus l' in
              ((pid, [core]) :: calls, r)
          | r => ([(pid, [core])], r)
          end
      end
  end.

Definition affinity_events (calls : list (Z * list Z)) : list event :=
  map (fun c => EAffinity (fst c) (snd c)) calls.

(** The query step goes through on host [h] for the port [port]: the
    connection is made, both commands are answered, and the second answer
    has the field ['return'], here [response]. *)
Definition query_ok (h : host) (port : string) (response : pyval) : Prop :=
  qmp_connect h ("localhost:" ++ port)%string = Ok tt
  /\ exists r0 r1,
       qmp_reply h 0%nat "query-cpus-fast" = Ok r0
       /\ qmp_reply h 1%nat "query-cpus-fast" = Ok r1
       /\ getitem_str r1 "return" = Ok response.

(** The events of the query step when it goes through. *)
Definition query_events (port : string) (r0 : pyval) : list event :=
  [EConnect ("localhost:" ++ port)%string; ECmd "query-cpus-fast";
   EStdout r0; ECmd "query-cpus-fast"].

(** ** Example hosts and command lines *)

(** Two NUMA nodes {0: [2,0], 1: [3,1]}, four CPUs, a VM with the vCPU
    threads 111 and 222. *)
Definition example_host : host :=
  simple_host [111; 222] [[2; 0]; [3; 1]] [111; 222] 4.

(** A host with a single CPU, a VM with three vCPU threads. *)
Definition one_cpu_host : host :=
  simple_host [111; 222; 333] [[0]] [111; 222; 333] 1.

(** A VM that reports three vCPU threads, the second of which does not
    exist on the host. *)
Definition lost_thread_host : host :=
  simple_host [111; 222; 333] [[2; 0]; [3; 1]] [111; 333] 4.

(** [pin-cpu.py 4444 n]. *)
Definition example_argv (n : string) : list string :=
  ["pin-cpu.py"; "4444"; n].

(** What C5 asks of [pin_proc] on a failing call: the error is caught
    there, a line goes to the diagnostic stream and the process exits with
    a non-zero status. *)
Definition caught_printed_exited (h : host) (pid core : Z) (w : world) : Prop :=
  exists c w',
    pin_proc h pid core w = (Exiting c, w')
    /\ c <> 0
    /\ stderr_lines (trace w') <> stderr_lines (trace w).

(** The same host, whose VM answers the first command with [r]. *)
Definition set_first_reply (h : host) (r : result pyval) : host :=
  mkHost (qmp_connect h)
         (fun k name => match k with O => r | S _ => qmp_reply h k name end)
         (numa_max_node h) (numa_node_to_cpus h) (psutil_cpu_affinity h).

(** The CPUs of the nodes [0 .. max_node], node after node, as [numa]
    gives them. *)
Definition numa_cpus (h : host) : list Z :=
  List.concat (map (numa_node_to_cpus h) (numa_nodes h)).

(** A host whose VM answers every command with [r]; no NUMA node, the
    threads [pids] on [ncpus] CPUs. *)
Definition reply_host (r : pyval) (pids : list Z) (ncpus : Z) : host :=
  mkHost (fun _ => Ok tt) (fun _ _ => Ok r) (-1) (fun _ => [])
         (psutil_linux pids ncpus).

(** A host on which nothing listens on the port. *)
Definition unreachable_host : host :=
  mkHost (fun _ => Raise (new_exn ConnectionError "Connection refused"))
         (fun _ _ => Raise (new_exn ConnectionError "not connected"))
         (-1) (fun _ => []) (psutil_linux [] 4).

(** A VM that answers with a QMP error object, which has no ['return']. *)
Definition error_reply_host : host :=
  reply_host (PDict [("error", PDict [("class", PStr "CommandNotFound")])])
             [111; 222] 4.

(** A VM whose second vCPU record has no ['thread-id']. *)
Definition bad_entry_host : host :=
  reply_host
    (PDict [("return",
             PList [PDict [("thread-id", PInt 111)];
                    PDict [("cpu-index", PInt 1)];
                    PDict [("thread-id", PInt 333)]])])
    [111; 333] 4.

(** A VM whose ['return'] is not a list. *)
Definition string_reply_host : host :=
  reply_host (PDict [("return", PStr "abc")]) [111; 222] 4.

(** ** The diagnostic stream *)

(** The traceback the interpreter writes to [sys.stderr] for an uncaught
    exception, as the exceptions it shows with their messages: first the
    chain of the exceptions that were being handled ("During handling of
    the above exception, another exception occurred"), oldest first, then
    the exception itself. *)
Fixpoint traceback (e : exn) : list exn :=
  match e with
  | Exn _ _ None => [e]
  | Exn _ _ (Some e') => traceback e' ++ [e]
  end.

(** The exceptions shown on [sys.stderr] by the end of a run. *)
Definition diagnostic (h : host) (argv : list string) : list exn :=
  match snd (python3 h argv) with
  | Uncaught e => traceback e
  | _ => []
  end.

(** * Properties *)

(** ** [sorted] sorts *)

Section Sorting.

Lemma insert_sorted_perm x l : Permutation (x :: l) (insert_sorted x l).
Proof.
  induction l as [|y l IH]; simpl.
  - apply Permutation_refl.
  - destruct (x <=? y).
    + apply Permutation_refl.
    + eapply perm_trans; [apply perm_swap|].
      now apply perm_skip.
Qed.

Lemma insert_sorted_bound z x l :
  z <= x -> Forall (Z.le z) l -> Forall (Z.le z) (insert_sorted x l).
Proof.
  intros Hzx Hl.
  eapply Permutation_Forall; [apply insert_sorted_perm|].
  now constructor.
Qed.

Lemma insert_sorted_ascending x l :
  StronglySorted Z.le l -> StronglySorted Z.le (insert_sorted x l).
Proof.
  induction 1 as [|y l Hs IH Hy]; simpl.
  - repeat constructor.
  - destruct (x <=? y) eqn:E.
    + apply Z.leb_le in E.
      constructor; [now constructor|].
      constructor; [exact E|].
      eapply Forall_impl; [|exact Hy].
      intros; lia.
    + apply Z.leb_gt in E.
      constructor; [exact IH|].
      apply insert_sorted_bound; [lia|exact Hy].
Qed.

Lemma sorted_perm l : Permutation l (sorted l).
Proof.
  induction l as [|x l IH]; simpl.
  - constructor.
  - eapply perm_trans; [apply perm_skip, IH|].
    apply insert_sorted_perm.
Qed.

Lemma sorted_ascending l : StronglySorted Z.le (sorted l).
Proof.
  induction l as [|x l IH]; simpl.
  - constructor.
  - now apply insert_sorted_ascending.
Qed.

End Sorting.

(** ** The NUMA enumerator *)

Section Onlinecpu.

Variable h : host.

Lemma py_range2_from_0 n : py_range2 0 n = py_range n.
Proof.
  unfold py_range2, py_range.
  rewrite Z.sub_0_r.
  apply map_ext; intros; lia.
Qed.

Lemma append_loop (l acc : list Z) (w : world) :
  for_fold l acc (fun cpu o_cpus => ret (o_cpus ++ [cpu])) w
  = (Normal (acc ++ l), w).
Proof.
  revert acc; induction l as [|c l IH]; intros acc; simpl.
  - now rewrite app_nil_r.
  - unfold bind, ret at 1; simpl.
    rewrite IH, <- app_assoc; reflexivity.
Qed.

Lemma node_loop (nodes acc : list Z) (w : world) :
  for_fold nodes acc (fun node o_cpus =>
    for_fold (sorted (numa_node_to_cpus h node)) o_cpus
      (fun cpu o_cpus => ret (o_cpus ++ [cpu]))) w
  = (Normal (acc ++ List.concat
                      (map (fun node => sorted (numa_node_to_cpus h node))
                           nodes)), w).
Proof.
  revert acc; induction nodes as [|n nodes IH]; intros acc; simpl.
  - now rewrite app_nil_r.
  - unfold bind at 1; rewrite append_loop, IH, <- app_assoc; reflexivity.
Qed.

Lemma onlinecpu_run (w : world) : onlinecpu h w = (Normal (numa_order h), w).
Proof.
  unfold onlinecpu, numa_order, numa_nodes.
  rewrite py_range2_from_0, node_loop; reflexivity.
Qed.

End Onlinecpu.

(** C2. For every topology and from every state, [onlinecpu] returns the
    concatenation, over the node indices 0..max_node ascending, of each
    node's CPU ids sorted ascending (each chunk is ascending and a
    permutation of the node's CPUs), and leaves the state as it found it;
    on a host with nodes {0: [2,0], 1: [3,1]} it returns [0,2,1,3]. *)
Theorem onlinecpu_numa_order :
  (forall (h : host) (w : world),
      onlinecpu h w = (Normal (numa_order h), w))
  /\ (forall (h : host) (node : Z),
         StronglySorted Z.le (sorted (numa_node_to_cpus h node))
         /\ Permutation (numa_node_to_cpus h node)
                        (sorted (numa_node_to_cpus h node)))
  /\ (forall (h : host) (w : world),
         numa_max_node h = 1 ->
         numa_node_to_cpus h 0 = [2; 0] ->
         numa_node_to_cpus h 1 = [3; 1] ->
         onlinecpu h w = (Normal [0; 2; 1; 3], w)).
Proof.
  split; [|split].
  - intros; apply onlinecpu_run.
  - intros; split; [apply sorted_ascending | apply sorted_perm].
  - intros h w Hmax H0 H1.
    rewrite onlinecpu_run.
    unfold numa_order, numa_nodes.
    rewrite Hmax; simpl.
    rewrite H0, H1; reflexivity.
Qed.

Lemma onlinecpu_numa_order_witness :
  onlinecpu example_host world0 = (Normal [0; 2; 1; 3], world0).
Proof.
  apply (proj2 (proj2 onlinecpu_numa_order)); reflexivity.
Defined.

(** ** The pinning loop *)

Section Loop.

Variable h : host.
Variable response : pyval.
Variable o_cpus : list Z.

Lemma pin_proc_run pid core w :
  pin_proc h pid core w
  = (pin_result h pid core, emit (EAffinity pid [core]) w).
Proof.
  unfold pin_proc, try_except_ValueError, cpu_affinity, pin_result.
  destruct (psutil_cpu_affinity h pid [core]) as [[]|e]; simpl;
    [reflexivity|].
  destruct (is_ValueError (exn_cls e)); reflexivity.
Qed.

Lemma loop_body_run i w :
  loop_body h response o_cpus i w
  = match call_at response o_cpus i with
    | Raise e => (Raised e, w)
    | Ok (pid, core) =>
        (pin_result h pid core, emit (EAffinity pid [core]) w)
    end.
Proof.
  unfold loop_body, call_at, tid_of, bind, lift.
  destruct (getitem_int response i) as [entry|e]; simpl; [|reflexivity].
  destruct (getitem_str entry "thread-id") as [tid|e]; simpl; [|reflexivity].
  destruct (py_int tid) as [pid|e]; simpl; [|reflexivity].
  destruct (list_getitem o_cpus i) as [core|e]; simpl; [|reflexivity].
  apply pin_proc_run.
Qed.

(** [sys.exit(1)] is never reached: [pin_proc] returns or raises. *)
Lemma pin_result_cases pid core :
  (pin_result h pid core = Normal tt
   /\ psutil_cpu_affinity h pid [core] = Ok tt)
  \/ (exists e,
         psutil_cpu_affinity h pid [core] = Raise e
         /\ pin_result h pid core
            = if is_ValueError (exn_cls e)
              then Raised (set_context rshift_error e)
              else Raised e).
Proof.
  unfold pin_result.
  destruct (psutil_cpu_affinity h pid [core]) as [[]|e]; [left|right]; eauto.
Qed.

Lemma for_each_loop_body l w :
  for_each l (loop_body h response o_cpus) w
  = (snd (pin_all h response o_cpus l),
     mkWorld (trace w ++ affinity_events (fst (pin_all h response o_cpus l)))
             (sent w)).
Proof.
  revert w; induction l as [|i l IH]; intros w; simpl.
  - destruct w; unfold ret; simpl; now rewrite app_nil_r.
  - unfold bind at 1; rewrite loop_body_run.
    destruct (call_at response o_cpus i) as [[pid core]|e]; simpl.
    + destruct (pin_result h pid core) as [[]|e|c]; simpl;
        try reflexivity.
      rewrite IH.
      destruct (pin_all h response o_cpus l) as [calls r]; simpl.
      now rewrite <- app_assoc.
    + destruct w; simpl; now rewrite app_nil_r.
Qed.

(** The loop makes at most one call per index. *)
Lemma pin_all_length l :
  (List.length (fst (pin_all h response o_cpus l)) <= List.length l)%nat.
Proof.
  induction l as [|i l IH]; simpl; [lia|].
  destruct (call_at response o_cpus i) as [[pid core]|e]; simpl; [|lia].
  destruct (pin_result h pid core) as [[]|e|c]; simpl; try lia.
  destruct (pin_all h response o_cpus l); simpl in *; lia.
Qed.

(** The [k]-th call is the one line 36 computes for the [k]-th index. *)
Lemma pin_all_nth l k pid cpus :
  nth_error (fst (pin_all h response o_cpus l)) k = Some (pid, cpus) ->
  exists i core,
    nth_error l k = Some i
    /\ call_at response o_cpus i = Ok (pid, core)
    /\ cpus = [core].
Proof.
  revert k; induction l as [|i l IH]; intros k; simpl.
  - destruct k; discriminate.
  - destruct (call_at response o_cpus i) as [[p c]|e] eqn:Ec; simpl.
    + destruct (pin_result h p c) as [[]|e|x]; simpl.
      * destruct (pin_all h response o_cpus l) as [calls r]; simpl in *.
        destruct k as [|k]; simpl.
        -- intros [= <- <-]; eauto.
        -- intros Hk; destruct (IH _ Hk) as (j & core & ? & ? & ?); eauto.
      * destruct k as [|[|k]]; simpl; try discriminate.
        intros [= <- <-]; eauto.
      * destruct k as [|[|k]]; simpl; try discriminate.
        intros [= <- <-]; eauto.
    + destruct k; discriminate.
Qed.

(** The loop never ends through [sys.exit]. *)
Lemma pin_all_never_exits l c :
  snd (pin_all h response o_cpus l) <> Exiting c.
Proof.
  induction l as [|i l IH]; simpl; [discriminate|].
  destruct (call_at response o_cpus i) as [[p core]|e]; simpl;
    [|discriminate].
  destruct (pin_result_cases p core) as [[-> _]|(e & _ & ->)].
  - destruct (pin_all h response o_cpus l); exact IH.
  - destruct (is_ValueError (exn_cls e)); discriminate.
Qed.

(** When the loop ends normally every index was served, and every call
    went through. *)
Lemma pin_all_ok l :
  snd (pin_all h response o_cpus l) = Normal tt ->
  List.length (fst (pin_all h response o_cpus l)) = List.length l
  /\ Forall (fun c => psutil_cpu_affinity h (fst c) (snd c) = Ok tt)
            (fst (pin_all h response o_cpus l)).
Proof.
  induction l as [|i l IH]; simpl; [now split|].
  destruct (call_at response o_cpus i) as [[p c]|e]; simpl; [|discriminate].
  destruct (pin_result_cases p c) as [[-> Hp]|(e & _ & ->)].
  - destruct (pin_all h response o_cpus l) as [calls r]; simpl in *.
    intros Hr; destruct (IH Hr) as [Hlen Hall].
    split; [now rewrite Hlen|].
    constructor; [exact Hp | exact Hall].
  - destruct (is_ValueError (exn_cls e)); discriminate.
Qed.

(** When line 36 goes through at every index and psutil accepts every
    call, the loop makes exactly these calls and ends normally. *)
Lemma pin_all_served l calls :
  Forall2 (fun i c =>
             exists core,
               call_at response o_cpus i = Ok (fst c, core)
               /\ snd c = [core]
               /\ psutil_cpu_affinity h (fst c) [core] = Ok tt) l calls ->
  pin_all h response o_cpus l = (calls, Normal tt).
Proof.
  induction 1 as [|i [pid cpus] l calls (core & Hc & Hs & Hp) _ IH]; simpl;
    [reflexivity|].
  simpl in Hc, Hs, Hp; subst cpus.
  rewrite Hc; unfold pin_result; rewrite Hp, IH; reflexivity.
Qed.

(** A call psutil refuses is the last one, and it ends the loop with the
    result of [pin_proc]. *)
Lemma pin_all_refused l k pid cpus e :
  nth_error (fst (pin_all h response o_cpus l)) k = Some (pid, cpus) ->
  psutil_cpu_affinity h pid cpus = Raise e ->
  List.length (fst (pin_all h response o_cpus l)) = S k
  /\ snd (pin_all h response o_cpus l)
     = if is_ValueError (exn_cls e) then Raised (set_context rshift_error e)
       else Raised e.
Proof.
  revert k; induction l as [|i l IH]; intros k; simpl.
  - destruct k; discriminate.
  - destruct (call_at response o_cpus i) as [[p c]|e0]; simpl.
    + destruct (pin_result_cases p c) as [[-> Hp0]|(e0 & Hp0 & ->)].
      * destruct (pin_all h response o_cpus l) as [calls r]; simpl in *.
        destruct k as [|k]; simpl.
        -- intros [= <- <-] Hp; congruence.
        -- intros Hk Hp; destruct (IH _ Hk Hp) as [Hlen Hr].
           split; [now rewrite Hlen | exact Hr].
      * assert (Hk : forall r : flow unit,
                   nth_error (fst ([(p, [c])], r)) k = Some (pid, cpus) ->
                   k = 0%nat /\ p = pid /\ [c] = cpus).
        { intros r; destruct k as [|[|k]]; simpl; try discriminate.
          intros [= <- <-]; auto. }
        destruct (is_ValueError (exn_cls e0)) eqn:Ev; simpl;
          intros Hn Hp; destruct (Hk (Normal tt) Hn) as (-> & -> & <-);
          rewrite Hp0 in Hp; injection Hp as <-; rewrite Ev; auto.
    + destruct k; discriminate.
Qed.

(** The loop over [l1 ++ l2] is the loop over [l1], followed by the loop
    over [l2] when the first ends normally. *)
Lemma pin_all_app l1 l2 :
  pin_all h response o_cpus (l1 ++ l2)
  = match snd (pin_all h response o_cpus l1) with
    | Normal _ =>
        (fst (pin_all h response o_cpus l1)
           ++ fst (pin_all h response o_cpus l2),
         snd (pin_all h response o_cpus l2))
    | _ => pin_all h response o_cpus l1
    end.
Proof.
  induction l1 as [|i l1 IH]; simpl.
  - now destruct (pin_all h response o_cpus l2).
  - destruct (call_at response o_cpus i) as [[p c]|e]; simpl;
      [|reflexivity].
    destruct (pin_result h p c) as [[]|e|x]; simpl; try reflexivity.
    rewrite IH.
    destruct (pin_all h response o_cpus l1) as [calls [[]|e|x]]; simpl;
      reflexivity.
Qed.

End Loop.

(** ** Reading a trace *)

Section Traces.

Lemma affinity_calls_app t1 t2 :
  affinity_calls (t1 ++ t2) = affinity_calls t1 ++ affinity_calls t2.
Proof.
  induction t1 as [|[] t1 IH]; simpl; congruence.
Qed.

Lemma commands_app t1 t2 : commands (t1 ++ t2) = commands t1 ++ commands t2.
Proof.
  induction t1 as [|[] t1 IH]; simpl; congruence.
Qed.

Lemma stderr_lines_app t1 t2 :
  stderr_lines (t1 ++ t2) = stderr_lines t1 ++ stderr_lines t2.
Proof.
  induction t1 as [|[] t1 IH]; simpl; congruence.
Qed.

Lemma affinity_calls_events calls :
  affinity_calls (affinity_events calls) = calls.
Proof.
  induction calls as [|[pid cpus] calls IH]; simpl; congruence.
Qed.

Lemma commands_affinity_events calls : commands (affinity_events calls) = [].
Proof.
  induction calls as [|c calls IH]; simpl; congruence.
Qed.

Lemma stderr_lines_affinity_events calls :
  stderr_lines (affinity_events calls) = [].
Proof.
  induction calls as [|c calls IH]; simpl; congruence.
Qed.

End Traces.

(** ** The whole run *)

Section Run.

Variable h : host.

#[local] Arguments String.append : simpl never.

(** The list comprehension of line 33 copies [range(N)]. *)
Lemma o_cpus_range n : map (fun x : Z => x) (py_range n) = py_range n.
Proof. apply map_id. Qed.

(** Run the script as far as the hypotheses tell what the libraries and
    the builtins answer. *)
Ltac run_script :=
  unfold python3, main, bind, lift, QMPQuery, query_cmd, py_print;
  repeat (simpl;
          match goal with
          | H : ?x = _ |- context [flow_of ?x] => rewrite H
          end);
  simpl.

(** A run whose query step goes through is the query step followed by
    the pinning loop over [range(N)], with [range(N)] as core list. *)
Lemma python3_run argv port a N r0 r1 response :
  list_getitem argv 1 = Ok port ->
  qmp_connect h ("localhost:" ++ port)%string = Ok tt ->
  qmp_reply h 0%nat "query-cpus-fast" = Ok r0 ->
  qmp_reply h 1%nat "query-cpus-fast" = Ok r1 ->
  getitem_str r1 "return" = Ok response ->
  list_getitem argv 2 = Ok a ->
  int_of_str a = Ok N ->
  python3 h argv
  = (query_events port r0
       ++ affinity_events
            (fst (pin_all h response (py_range N) (py_range N))),
     ending_of (snd (pin_all h response (py_range N) (py_range N)))).
Proof.
  intros Hport Hconn H0 H1 Hret Ha HN.
  run_script.
  rewrite o_cpus_range, for_each_loop_body; reflexivity.
Qed.

Ltac early_trace :=
  split; [reflexivity|];
  split; [reflexivity|];
  split; [reflexivity|];
  split; [first [ exists 0%nat; split; [lia|reflexivity]
                | exists 1%nat; split; [lia|reflexivity]
                | exists 2%nat; split; [lia|reflexivity] ]|];
  split;
  [ intros p r Hp Hcn Hr0;
    first [ congruence
          | injection Hp as <-;
            first [ congruence
                  | injection Hr0 as <-;
                    split; [reflexivity | simpl; auto] ] ]
  | intros p Hp;
    first [ congruence
          | injection Hp as <-; eexists; split; [reflexivity|];
            intros addr; simpl; intuition discriminate ] ].

(** Every run either stops in the query step or while reading N, with an
    exception nobody catches, having made no affinity-set call and sent
    at most two commands, or is as [python3_run] says. *)
Lemma python3_cases argv :
  (exists t e,
      python3 h argv = (t, Uncaught e)
      /\ affinity_calls t = []
      /\ stderr_lines t = []
      /\ (exists k, (k <= 2)%nat /\ commands t = repeat "query-cpus-fast" k)
      /\ (forall port r,
             list_getitem argv 1 = Ok port ->
             qmp_connect h ("localhost:" ++ port)%string = Ok tt ->
             qmp_reply h 0%nat "query-cpus-fast" = Ok r ->
             commands t = repeat "query-cpus-fast" 2 /\ In (EStdout r) t)
      /\ (forall port,
             list_getitem argv 1 = Ok port ->
             exists t',
               t = EConnect ("localhost:" ++ port)%string :: t'
               /\ forall addr, ~ In (EConnect addr) t'))
  \/ (exists port a N r0 r1 response,
         list_getitem argv 1 = Ok port
         /\ qmp_connect h ("localhost:" ++ port)%string = Ok tt
         /\ qmp_reply h 0%nat "query-cpus-fast" = Ok r0
         /\ qmp_reply h 1%nat "query-cpus-fast" = Ok r1
         /\ getitem_str r1 "return" = Ok response
         /\ list_getitem argv 2 = Ok a
         /\ int_of_str a = Ok N).
Proof.
  destruct (list_getitem argv 1) as [port|e] eqn:Hport.
  2:{ left; exists [], e; run_script; early_trace. }
  destruct (qmp_connect h ("localhost:" ++ port)%string) as [[]|e] eqn:Hconn.
  2:{ left; exists [EConnect ("localhost:" ++ port)%string], e.
      run_script; early_trace. }
  destruct (qmp_reply h 0%nat "query-cpus-fast") as [r0|e] eqn:H0.
  2:{ left; exists [EConnect ("localhost:" ++ port)%string;
                    ECmd "query-cpus-fast"], e.
      run_script; early_trace. }
  destruct (qmp_reply h 1%nat "query-cpus-fast") as [r1|e] eqn:H1.
  2:{ left; exists (query_events port r0), e; run_script; early_trace. }
  destruct (getitem_str r1 "return") as [response|e] eqn:Hret.
  2:{ left; exists (query_events port r0), e; run_script; early_trace. }
  destruct (list_getitem argv 2) as [a|e] eqn:Ha.
  2:{ left; exists (query_events port r0), e; run_script; early_trace. }
  destruct (int_of_str a) as [N|e] eqn:HN.
  2:{ left; exists (query_events port r0), e; run_script; early_trace. }
  right; exists port, a, N, r0, r1, response; repeat split; assumption.
Qed.

End Run.

(** ** Indices and the core list *)

Section Indexing.

Lemma nth_error_py_range N k i :
  nth_error (py_range N) k = Some i -> i = Z.of_nat k /\ Z.of_nat k < N.
Proof.
  unfold py_range; intros H.
  rewrite nth_error_map in H.
  destruct (nth_error (seq 0 (Z.to_nat N)) k) as [j|] eqn:Hj;
    simpl in H; [|discriminate].
  injection H as <-.
  assert (Hk : (k < List.length (seq 0 (Z.to_nat N)))%nat)
    by (apply nth_error_Some; congruence).
  rewrite length_seq in Hk.
  rewrite nth_error_nth' with (d := 0%nat) in Hj
    by (now rewrite length_seq).
  rewrite seq_nth in Hj by exact Hk.
  injection Hj as <-; split; [reflexivity | lia].
Qed.

Lemma py_range_length N : List.length (py_range N) = Z.to_nat N.
Proof. unfold py_range; now rewrite length_map, length_seq. Qed.

Lemma py_range_nth N k :
  Z.of_nat k < N -> nth_error (py_range N) k = Some (Z.of_nat k).
Proof.
  intros Hk; unfold py_range.
  rewrite nth_error_map.
  rewrite nth_error_nth' with (d := 0%nat) by (rewrite length_seq; lia).
  rewrite seq_nth by lia; reflexivity.
Qed.

Lemma list_getitem_nth {A} (l : list A) k x :
  list_getitem l (Z.of_nat k) = Ok x <-> nth_error l k = Some x.
Proof.
  unfold list_getitem; cbv zeta.
  assert (E : (Z.of_nat k <? 0) = false) by (apply Z.ltb_ge; lia).
  rewrite !E, Nat2Z.id; simpl.
  destruct (Z.of_nat (List.length l) <=? Z.of_nat k) eqn:Hlen; simpl.
  - apply Z.leb_le in Hlen.
    assert (Hn : nth_error l k = None) by (apply nth_error_None; lia).
    rewrite Hn; split; discriminate.
  - destruct (nth_error l k); split; congruence.
Qed.

(** Line 33: the [i]-th entry of the core list is [i] itself. *)
Lemma o_cpus_getitem N k core :
  list_getitem (py_range N) (Z.of_nat k) = Ok core -> core = Z.of_nat k.
Proof.
  intros H; apply list_getitem_nth in H.
  now apply nth_error_py_range in H.
Qed.

Lemma call_at_range response N k pid core :
  call_at response (py_range N) (Z.of_nat k) = Ok (pid, core) ->
  core = Z.of_nat k
  /\ exists entry,
       getitem_int response (Z.of_nat k) = Ok entry
       /\ tid_of entry = Ok pid.
Proof.
  unfold call_at.
  destruct (getitem_int response (Z.of_nat k)) as [entry|]; [|discriminate].
  destruct (tid_of entry) as [p|] eqn:Ht; [|discriminate].
  destruct (list_getitem (py_range N) (Z.of_nat k)) as [c|] eqn:Hc;
    [|discriminate].
  intros [= <- <-]; split; [now apply o_cpus_getitem in Hc|].
  exists entry; auto.
Qed.

(** The calls of the loop over [range(N)]: the [k]-th one hands the
    thread of [response[k]] the core [k], and [k < N]. *)
Lemma pin_all_range_nth h response N k pid cpus :
  nth_error (fst (pin_all h response (py_range N) (py_range N))) k
  = Some (pid, cpus) ->
  cpus = [Z.of_nat k]
  /\ Z.of_nat k < N
  /\ exists entry,
       getitem_int response (Z.of_nat k) = Ok entry
       /\ tid_of entry = Ok pid.
Proof.
  intros H.
  destruct (pin_all_nth _ _ _ _ _ _ _ H) as (i & core & Hi & Hc & ->).
  apply nth_error_py_range in Hi; destruct Hi as [-> Hlt].
  apply call_at_range in Hc; destruct Hc as [-> Hentry].
  auto.
Qed.

End Indexing.

(** ** The script as a whole *)

Lemma no_connect_in_affinity_events calls addr :
  ~ In (EConnect addr) (affinity_events calls).
Proof.
  induction calls as [|c calls IH]; simpl; [tauto|].
  intros [H|H]; [discriminate | exact (IH H)].
Qed.

(** The affinity-set calls of a run: none when it stops early, those of
    the loop over [range(N)] on the second reply otherwise. *)
Lemma affinity_calls_of_run h argv :
  affinity_calls (events_of h argv) = []
  \/ exists port a N r1 response,
       list_getitem argv 1 = Ok port
       /\ list_getitem argv 2 = Ok a
       /\ int_of_str a = Ok N
       /\ qmp_reply h 1%nat "query-cpus-fast" = Ok r1
       /\ getitem_str r1 "return" = Ok response
       /\ affinity_calls (events_of h argv)
          = fst (pin_all h response (py_range N) (py_range N)).
Proof.
  unfold events_of.
  destruct (python3_cases h argv)
    as [(t & e & -> & Hc & _)
       |(port & a & N & r0 & r1 & response
         & Hport & Hconn & H0 & H1 & Hret & Ha & HN)].
  - left; exact Hc.
  - right; exists port, a, N, r1, response.
    rewrite (python3_run h argv port a N r0 r1 response) by assumption.
    cbn [fst]; rewrite affinity_calls_app, affinity_calls_events.
    repeat split; assumption.
Qed.

(** C8, as the code has it. A run sends the command [query-cpus-fast] and
    no other, at most twice; when the connection is made and the first
    command is answered it sends it exactly twice, printing the first
    answer; and the thread id of every affinity-set call is read from the
    answer to the second one, taken as a list of objects that have an
    integer ['thread-id']. *)
Theorem queries_twice (h : host) (argv : list string) :
  (exists k,
      (k <= 2)%nat
      /\ commands (events_of h argv) = repeat "query-cpus-fast" k)
  /\ (forall port r0,
         list_getitem argv 1 = Ok port ->
         qmp_connect h ("localhost:" ++ port)%string = Ok tt ->
         qmp_reply h 0%nat "query-cpus-fast" = Ok r0 ->
         commands (events_of h argv)
         = ["query-cpus-fast"; "query-cpus-fast"]
         /\ In (EStdout r0) (events_of h argv))
  /\ (forall k pid cpus,
         nth_error (affinity_calls (events_of h argv)) k = Some (pid, cpus) ->
         exists r1 response entry,
           qmp_reply h 1%nat "query-cpus-fast" = Ok r1
           /\ getitem_str r1 "return" = Ok response
           /\ getitem_int response (Z.of_nat k) = Ok entry
           /\ tid_of entry = Ok pid).
Proof.
  split; [|split].
  - unfold events_of.
    destruct (python3_cases h argv)
      as [(t & e & -> & _ & _ & Hk & _)
         |(port & a & N & r0 & r1 & response
           & Hport & Hconn & H0 & H1 & Hret & Ha & HN)].
    + exact Hk.
    + rewrite (python3_run h argv port a N r0 r1 response) by assumption.
      exists 2%nat; split; [lia|].
      cbn [fst]; rewrite commands_app, commands_affinity_events; reflexivity.
  - intros port r0 Hport Hconn H0.
    unfold events_of.
    destruct (python3_cases h argv)
      as [(t & e & -> & _ & _ & _ & Hq & _)
         |(port' & a & N & r0' & r1 & response
           & Hport' & Hconn' & H0' & H1 & Hret & Ha & HN)].
    + exact (Hq port r0 Hport Hconn H0).
    + rewrite (python3_run h argv port' a N r0' r1 response) by assumption.
      assert (r0' = r0) by congruence; subst r0'.
      cbn [fst]; rewrite commands_app, commands_affinity_events.
      split; [reflexivity | simpl; auto].
  - intros k pid cpus Hk.
    destruct (affinity_calls_of_run h argv)
      as [E|(port & a & N & r1 & response & _ & _ & _ & H1 & Hret & E)];
      rewrite E in Hk; [destruct k; discriminate|].
    apply pin_all_range_nth in Hk.
    destruct Hk as (_ & _ & entry & He & Ht).
    exists r1, response, entry; auto.
Qed.

Lemma queries_twice_witness :
  commands (events_of example_host (example_argv "2"))
  = ["query-cpus-fast"; "query-cpus-fast"]
  /\ In (EStdout (cpus_fast_reply [111; 222]))
        (events_of example_host (example_argv "2")).
Proof.
  apply (proj1 (proj2 (queries_twice example_host (example_argv "2")))
           "4444" (cpus_fast_reply [111; 222]));
    reflexivity.
Defined.

(** C8 as stated fails: this run sends two query commands, not one. *)
Lemma one_query_counterexample :
  ~ List.length (commands (events_of example_host (example_argv "2"))) = 1%nat.
Proof.
  vm_compute; discriminate.
Qed.

(** C9. With N = 0 and a query step that goes through, the run makes no
    affinity-set call and ends normally, with exit status 0. *)
Theorem zero_vcpus_pins_nothing (h : host) (argv : list string)
    (port a : string) (response : pyval) :
  list_getitem argv 1 = Ok port ->
  list_getitem argv 2 = Ok a ->
  int_of_str a = Ok 0 ->
  query_ok h port response ->
  affinity_calls (events_of h argv) = []
  /\ snd (python3 h argv) = Finished
  /\ status_of h argv = 0.
Proof.
  intros Hport Ha HN (Hconn & r0 & r1 & H0 & H1 & Hret).
  unfold status_of, events_of.
  rewrite (python3_run h argv port a 0 r0 r1 response) by assumption.
  repeat split.
Qed.

Lemma zero_vcpus_pins_nothing_witness :
  affinity_calls (events_of example_host (example_argv "0")) = []
  /\ snd (python3 example_host (example_argv "0")) = Finished
  /\ status_of example_host (example_argv "0") = 0.
Proof.
  apply (zero_vcpus_pins_nothing example_host (example_argv "0") "4444" "0"
           (PList (map (fun t => PDict [("cpu-index", PInt 0);
                                        ("thread-id", PInt t)]) [111; 222])));
    try reflexivity.
  split; [reflexivity|].
  exists (cpus_fast_reply [111; 222]), (cpus_fast_reply [111; 222]).
  repeat split.
Defined.

(** ** Runs in which every call goes through *)

Lemma Forall2_combine_nth {P : Z -> Z * list Z -> Prop}
    (f : Z -> list Z) (l tids : list Z) :
  List.length tids = List.length l ->
  (forall k i t,
      nth_error l k = Some i -> nth_error tids k = Some t -> P i (t, f i)) ->
  Forall2 P l (combine tids (map f l)).
Proof.
  revert tids; induction l as [|i l IH]; intros [|t tids] Hlen Hp;
    simpl in *; try discriminate; constructor.
  - exact (Hp 0%nat i t eq_refl eq_refl).
  - apply IH; [lia|].
    intros k j u Hj Hu; exact (Hp (S k) j u Hj Hu).
Qed.

Lemma call_at_entry entries N k entry tid :
  nth_error entries k = Some entry ->
  tid_of entry = Ok tid ->
  Z.of_nat k < N ->
  call_at (PList entries) (py_range N) (Z.of_nat k) = Ok (tid, Z.of_nat k).
Proof.
  intros He Ht Hk; unfold call_at; simpl.
  apply list_getitem_nth in He; rewrite He, Ht.
  apply py_range_nth, list_getitem_nth in Hk; rewrite Hk; reflexivity.
Qed.

(** C1, as the code has it. For N >= 1, when the query step goes through
    and answers a list whose first N entries carry the thread ids [tids],
    and psutil accepts each call, the run makes exactly N affinity-set
    calls, the [i]-th one restricting thread [tids[i]] to the core [i] (the
    [i]-th entry of [0, ..., N-1], whatever the NUMA order), and ends
    normally. *)
Theorem pins_vcpu_i_to_core_i (h : host) (argv : list string)
    (port a : string) (N : Z) (entries : list pyval) (tids : list Z) :
  list_getitem argv 1 = Ok port ->
  list_getitem argv 2 = Ok a ->
  int_of_str a = Ok N ->
  1 <= N ->
  query_ok h port (PList entries) ->
  List.length tids = Z.to_nat N ->
  (forall k tid,
      nth_error tids k = Some tid ->
      exists entry,
        nth_error entries k = Some entry /\ tid_of entry = Ok tid) ->
  (forall k tid,
      nth_error tids k = Some tid ->
      psutil_cpu_affinity h tid [Z.of_nat k] = Ok tt) ->
  affinity_calls (events_of h argv)
  = combine tids (map (fun i => [i]) (py_range N))
  /\ snd (python3 h argv) = Finished.
Proof.
  intros Hport Ha HN Hpos (Hconn & r0 & r1 & H0 & H1 & Hret) Hlen Hent Hps.
  unfold events_of.
  rewrite (python3_run h argv port a N r0 r1 (PList entries)) by assumption.
  rewrite (pin_all_served h (PList entries) (py_range N) (py_range N)
             (combine tids (map (fun i => [i]) (py_range N)))).
  - cbn [fst snd]; rewrite affinity_calls_app, affinity_calls_events.
    split; reflexivity.
  - apply Forall2_combine_nth; [now rewrite py_range_length|].
    intros k i t Hi Ht; cbn [fst snd].
    apply nth_error_py_range in Hi; destruct Hi as [-> Hk].
    destruct (Hent k t Ht) as (entry & He & Htid).
    exists (Z.of_nat k); repeat split.
    + now apply call_at_entry with (entry := entry).
    + now apply Hps.
Qed.

Lemma pins_vcpu_i_to_core_i_witness :
  affinity_calls (events_of example_host (example_argv "2"))
  = [(111, [0]); (222, [1])]
  /\ snd (python3 example_host (example_argv "2")) = Finished.
Proof.
  apply (pins_vcpu_i_to_core_i example_host (example_argv "2") "4444" "2" 2
           (map (fun t => PDict [("cpu-index", PInt 0); ("thread-id", PInt t)])
                [111; 222])
           [111; 222]);
    try reflexivity; try lia.
  - split; [reflexivity|].
    exists (cpus_fast_reply [111; 222]), (cpus_fast_reply [111; 222]).
    repeat split.
  - intros [|[|[|k]]] tid; simpl; intros E; try discriminate;
      injection E as <-; eexists; split; reflexivity.
  - intros [|[|[|k]]] tid; simpl; intros E; try discriminate;
      injection E as <-; reflexivity.
Defined.

(** C1 as stated fails: on the host with nodes {0: [2,0], 1: [3,1]}, whose
    NUMA order is [0,2,1,3], the run for N = 2 and threads [111, 222] does
    not restrict thread 222 to the second core of that order. *)
Lemma numa_order_pinning_counterexample :
  ~ (forall i tid,
        nth_error [111; 222] i = Some tid ->
        nth_error (affinity_calls (events_of example_host (example_argv "2"))) i
        = Some (tid, [nth i (numa_order example_host) 0])).
Proof.
  intros H; specialize (H 1%nat 222 eq_refl).
  vm_compute in H; discriminate.
Qed.

(** ** Runs in which psutil refuses a call *)

(** In a run, a call psutil refuses is the last call made, and the run
    ends as [pin_proc] does on it. *)
Lemma refused_call_ends_run h argv k pid cpus e :
  nth_error (affinity_calls (events_of h argv)) k = Some (pid, cpus) ->
  psutil_cpu_affinity h pid cpus = Raise e ->
  List.length (affinity_calls (events_of h argv)) = S k
  /\ stderr_lines (events_of h argv) = []
  /\ snd (python3 h argv)
     = Uncaught (if is_ValueError (exn_cls e)
                 then set_context rshift_error e else e).
Proof.
  intros Hk Hp; unfold events_of in *.
  destruct (python3_cases h argv)
    as [(t & e0 & E & Hc & _)
       |(port & a & N & r0 & r1 & response
         & Hport & Hconn & H0 & H1 & Hret & Ha & HN)].
  - rewrite E in Hk; simpl in Hk; rewrite Hc in Hk.
    destruct k; discriminate.
  - rewrite (python3_run h argv port a N r0 r1 response) in * by assumption.
    cbn [fst snd] in *.
    rewrite affinity_calls_app, affinity_calls_events in *.
    rewrite stderr_lines_app, stderr_lines_affinity_events.
    simpl in Hk.
    destruct (pin_all_refused _ _ _ _ _ _ _ _ Hk Hp) as [Hlen ->].
    repeat split; [exact Hlen|].
    destruct (is_ValueError (exn_cls e)); reflexivity.
Qed.

(** C6. When the affinity call raises a [ValueError], the handler's first
    statement applies [>>] to [print] and [sys.stderr], which raises a
    [TypeError]; [sys.exit(1)] is not reached: [pin_proc] raises that
    [TypeError], with the [ValueError] as its context, and a run in which
    this happens writes no line of its own to the diagnostic stream and
    ends on this uncaught exception, not through [sys.exit]. *)
Theorem handler_raises_TypeError (h : host) :
  py_rshift (PBuiltin "print") (PFile "<stderr>") = Raise rshift_error
  /\ exn_cls rshift_error = TypeError
  /\ (forall pid core e w,
         psutil_cpu_affinity h pid [core] = Raise e ->
         is_ValueError (exn_cls e) = true ->
         pin_proc h pid core w
         = (Raised (Exn TypeError (exn_msg rshift_error) (Some e)),
            emit (EAffinity pid [core]) w))
  /\ (forall argv k pid cpus e,
         nth_error (affinity_calls (events_of h argv)) k = Some (pid, cpus) ->
         psutil_cpu_affinity h pid cpus = Raise e ->
         is_ValueError (exn_cls e) = true ->
         snd (python3 h argv)
         = Uncaught (Exn TypeError (exn_msg rshift_error) (Some e))
         /\ stderr_lines (events_of h argv) = []
         /\ (forall c, snd (python3 h argv) <> Exited c)).
Proof.
  split; [reflexivity|]; split; [reflexivity|]; split.
  - intros pid core e w Hp Hv.
    rewrite pin_proc_run; unfold pin_result; rewrite Hp, Hv; reflexivity.
  - intros argv k pid cpus e Hk Hp Hv.
    destruct (refused_call_ends_run h argv k pid cpus e Hk Hp)
      as (_ & Hs & ->).
    rewrite Hv; repeat split; [exact Hs | discriminate].
Qed.

Lemma handler_raises_TypeError_witness :
  pin_proc one_cpu_host 222 1 world0
  = (Raised (Exn TypeError (exn_msg rshift_error)
               (Some (new_exn ValueError "invalid CPU number 1"))),
     emit (EAffinity 222 [1]) world0).
Proof.
  apply (proj1 (proj2 (proj2 (handler_raises_TypeError one_cpu_host))));
    reflexivity.
Defined.

(** C5, as the code has it. An error of the affinity call that is no
    [ValueError], such as the [NoSuchProcess] psutil raises for a thread id
    that does not exist, is not caught by [pin_proc]: it leaves it as it
    came. A run in which this happens makes no further affinity-set call,
    writes no line of its own to the diagnostic stream and ends on this
    uncaught exception, with exit status 1. *)
Theorem missing_thread_not_caught (h : host) :
  (forall pid core e w,
      psutil_cpu_affinity h pid [core] = Raise e ->
      is_ValueError (exn_cls e) = false ->
      pin_proc h pid core w = (Raised e, emit (EAffinity pid [core]) w))
  /\ (forall argv k pid cpus e,
         nth_error (affinity_calls (events_of h argv)) k = Some (pid, cpus) ->
         psutil_cpu_affinity h pid cpus = Raise e ->
         exn_cls e = NoSuchProcess ->
         snd (python3 h argv) = Uncaught e
         /\ status_of h argv = 1
         /\ List.length (affinity_calls (events_of h argv)) = S k
         /\ stderr_lines (events_of h argv) = []).
Proof.
  split.
  - intros pid core e w Hp Hv.
    rewrite pin_proc_run; unfold pin_result; rewrite Hp, Hv; reflexivity.
  - intros argv k pid cpus e Hk Hp Hc.
    destruct (refused_call_ends_run h argv k pid cpus e Hk Hp)
      as (Hlen & Hs & He).
    rewrite Hc in He; simpl in He.
    unfold status_of; rewrite He; auto.
Qed.

Lemma missing_thread_not_caught_witness :
  snd (python3 lost_thread_host (example_argv "3"))
  = Uncaught (new_exn NoSuchProcess "process PID not found (pid=222)")
  /\ status_of lost_thread_host (example_argv "3") = 1
  /\ List.length
       (affinity_calls (events_of lost_thread_host (example_argv "3")))
     = 2%nat
  /\ stderr_lines (events_of lost_thread_host (example_argv "3")) = [].
Proof.
  apply (proj2 (missing_thread_not_caught lost_thread_host)
           (example_argv "3") 1%nat 222 [1]); reflexivity.
Defined.

(** C5 as stated fails: thread 222 does not exist, and [pin_proc] neither
    catches the error nor prints it nor exits. *)
Lemma missing_thread_counterexample :
  ~ caught_printed_exited lost_thread_host 222 1 world0.
Proof.
  intros (c & w' & H & _).
  vm_compute in H; discriminate.
Qed.

(** ** A reply with fewer entries than N *)

Lemma py_range_split (L : nat) (N : Z) :
  Z.of_nat L < N ->
  py_range N
  = py_range (Z.of_nat L)
      ++ Z.of_nat L :: map Z.of_nat (seq (S L) (Z.to_nat N - S L)).
Proof.
  intros H; unfold py_range.
  rewrite Nat2Z.id.
  replace (Z.to_nat N) with (L + S (Z.to_nat N - S L))%nat at 1 by lia.
  rewrite seq_app, map_app; reflexivity.
Qed.

(** When line 36 goes through and psutil accepts the call at every index
    of [l], the loop ends normally. *)
Lemma pin_all_progress h response o_cpus l :
  (forall i, In i l ->
     exists pid core,
       call_at response o_cpus i = Ok (pid, core)
       /\ psutil_cpu_affinity h pid [core] = Ok tt) ->
  snd (pin_all h response o_cpus l) = Normal tt.
Proof.
  induction l as [|i l IH]; intros H; simpl; [reflexivity|].
  destruct (H i (or_introl eq_refl)) as (pid & core & Hc & Hp).
  rewrite Hc; unfold pin_result; rewrite Hp.
  specialize (IH (fun j Hj => H j (or_intror Hj))).
  destruct (pin_all h response o_cpus l); exact IH.
Qed.

(** Indexing the reply at its length raises [IndexError]. *)
Lemma call_at_past_end entries o_cpus :
  call_at (PList entries) o_cpus (Z.of_nat (List.length entries))
  = Raise (new_exn IndexError "list index out of range").
Proof.
  unfold call_at; simpl.
  destruct (list_getitem entries (Z.of_nat (List.length entries)))
    as [x|e] eqn:E.
  - apply list_getitem_nth in E.
    assert (nth_error entries (List.length entries) = None)
      by (apply nth_error_None; lia).
    congruence.
  - revert E; unfold list_getitem; cbv zeta.
    assert (E0 : (Z.of_nat (List.length entries) <? 0) = false)
      by (apply Z.ltb_ge; lia).
    rewrite !E0, Z.leb_refl; simpl; congruence.
Qed.

(** Over a reply of fewer than N entries, the loop over [range(N)] is the
    loop over the indices of the reply, followed, if it gets that far, by
    the [IndexError] of indexing the reply at its length. *)
Lemma pin_all_short h entries o N :
  Z.of_nat (List.length entries) < N ->
  pin_all h (PList entries) o (py_range N)
  = match snd (pin_all h (PList entries) o
                 (py_range (Z.of_nat (List.length entries)))) with
    | Normal _ =>
        (fst (pin_all h (PList entries) o
                (py_range (Z.of_nat (List.length entries)))),
         Raised (new_exn IndexError "list index out of range"))
    | _ => pin_all h (PList entries) o
             (py_range (Z.of_nat (List.length entries)))
    end.
Proof.
  intros Hshort.
  rewrite (py_range_split (List.length entries) N Hshort), pin_all_app.
  destruct (snd (pin_all h (PList entries) o
                   (py_range (Z.of_nat (List.length entries)))));
    try reflexivity.
  simpl; rewrite call_at_past_end; simpl.
  now rewrite app_nil_r.
Qed.

(** C7. When the query step goes through and answers a list of fewer than
    N entries, the run ends on an exception nobody catches, with exit
    status 1, and makes no more affinity-set calls than the list has
    entries, the [k]-th for the entry [k]; when every entry has a thread id
    and psutil accepts each call, that exception is the [IndexError] of
    indexing the list at its length. *)
Theorem short_reply_fails (h : host) (argv : list string)
    (port a : string) (N : Z) (entries : list pyval) :
  list_getitem argv 1 = Ok port ->
  list_getitem argv 2 = Ok a ->
  int_of_str a = Ok N ->
  query_ok h port (PList entries) ->
  Z.of_nat (List.length entries) < N ->
  (exists e, snd (python3 h argv) = Uncaught e)
  /\ status_of h argv = 1
  /\ (List.length (affinity_calls (events_of h argv))
      <= List.length entries)%nat
  /\ (forall k pid cpus,
         nth_error (affinity_calls (events_of h argv)) k = Some (pid, cpus) ->
         exists entry,
           nth_error entries k = Some entry /\ tid_of entry = Ok pid)
  /\ ((forall k entry,
          nth_error entries k = Some entry ->
          exists tid,
            tid_of entry = Ok tid
            /\ psutil_cpu_affinity h tid [Z.of_nat k] = Ok tt) ->
      snd (python3 h argv)
      = Uncaught (new_exn IndexError "list index out of range")
      /\ List.length (affinity_calls (events_of h argv))
         = List.length entries).
Proof.
  intros Hport Ha HN (Hconn & r0 & r1 & H0 & H1 & Hret) Hshort.
  unfold status_of, events_of.
  rewrite (python3_run h argv port a N r0 r1 (PList entries)) by assumption.
  cbn [fst snd]; rewrite affinity_calls_app, affinity_calls_events.
  simpl (affinity_calls (query_events port r0) ++ _).
  assert (Hnth := fun k pid cpus =>
            pin_all_range_nth h (PList entries) N k pid cpus).
  rewrite (pin_all_short h entries (py_range N) N Hshort) in *.
  assert (Hlen := pin_all_length h (PList entries) (py_range N)
                    (py_range (Z.of_nat (List.length entries)))).
  rewrite py_range_length, Nat2Z.id in Hlen.
  assert (Hnever := pin_all_never_exits h (PList entries) (py_range N)
                      (py_range (Z.of_nat (List.length entries)))).
  assert (Hok := pin_all_ok h (PList entries) (py_range N)
                   (py_range (Z.of_nat (List.length entries)))).
  assert (Hprog := pin_all_progress h (PList entries) (py_range N)
                     (py_range (Z.of_nat (List.length entries)))).
  destruct (pin_all h (PList entries) (py_range N)
              (py_range (Z.of_nat (List.length entries))))
    as [calls r]; cbn [fst snd] in *.
  assert (Hcalls : fst match r with
                       | Normal _ =>
                           (calls,
                            Raised (new_exn IndexError
                                      "list index out of range"))
                       | _ => (calls, r)
                       end = calls)
    by (destruct r; reflexivity).
  rewrite Hcalls in *.
  split; [|split; [|split; [exact Hlen|split]]].
  - destruct r as [[]|e|c]; simpl; eauto.
    now destruct (Hnever c).
  - destruct r as [[]|e|c]; simpl; try reflexivity.
    now destruct (Hnever c).
  - intros k pid cpus Hk.
    destruct (Hnth k pid cpus Hk) as (_ & _ & entry & He & Ht).
    simpl in He; apply list_getitem_nth in He; eauto.
  - intros Hall.
    assert (Hr : r = Normal tt).
    { apply Hprog; intros i Hi.
      apply In_nth_error in Hi; destruct Hi as [k Hk].
      apply nth_error_py_range in Hk; destruct Hk as [-> Hk].
      apply Nat2Z.inj_lt in Hk.
      destruct (nth_error entries k) as [entry|] eqn:He;
        [|apply nth_error_None in He; lia].
      destruct (Hall k entry He) as (tid & Ht & Hp).
      exists tid, (Z.of_nat k); split; [|exact Hp].
      apply call_at_entry with (entry := entry); auto; lia. }
    subst r; split; [reflexivity|].
    destruct (Hok eq_refl) as [E _].
    now rewrite E, py_range_length, Nat2Z.id.
Qed.

Lemma short_reply_fails_witness :
  snd (python3 example_host (example_argv "3"))
  = Uncaught (new_exn IndexError "list index out of range")
  /\ List.length (affinity_calls (events_of example_host (example_argv "3")))
     = 2%nat.
Proof.
  apply (proj2 (proj2 (proj2 (proj2
           (short_reply_fails example_host (example_argv "3") "4444" "3" 3
              (map (fun t => PDict [("cpu-index", PInt 0);
                                    ("thread-id", PInt t)]) [111; 222])
              eq_refl eq_refl eq_refl
              (conj eq_refl
                 (ex_intro _ (cpus_fast_reply [111; 222])
                    (ex_intro _ (cpus_fast_reply [111; 222])
                       (conj eq_refl (conj eq_refl eq_refl)))))
              eq_refl))))).
  intros [|[|[|k]]] entry; simpl; intros E; try discriminate;
    injection E as <-; eexists; split; reflexivity.
Defined.


(** * Further properties of the script *)

(** ** [onlinecpu] *)

Lemma in_numa_nodes h node :
  In node (numa_nodes h) <-> 0 <= node <= numa_max_node h.
Proof.
  unfold numa_nodes; rewrite in_map_iff; split.
  - intros (k & <- & Hk); apply in_seq in Hk; lia.
  - intros Hn; exists (Z.to_nat node); split; [lia|].
    apply in_seq; lia.
Qed.

Lemma numa_order_perm h : Permutation (numa_order h) (numa_cpus h).
Proof.
  unfold numa_order, numa_cpus.
  induction (numa_nodes h) as [|n nodes IH]; simpl; [constructor|].
  apply Permutation_app; [|exact IH].
  apply Permutation_sym, sorted_perm.
Qed.

(** X1. [onlinecpu] loses and repeats nothing: what it returns is a
    rearrangement of the CPUs of the nodes 0..max_node, so a CPU is in the
    order exactly when it belongs to one of these nodes, and the order is as
    long as the nodes have CPUs together. *)
Theorem onlinecpu_keeps_every_cpu (h : host) (w : world) :
  exists order,
    onlinecpu h w = (Normal order, w)
    /\ Permutation order (numa_cpus h)
    /\ List.length order = List.length (numa_cpus h)
    /\ (forall cpu,
           In cpu order
           <-> exists node,
                 0 <= node <= numa_max_node h
                 /\ In cpu (numa_node_to_cpus h node)).
Proof.
  exists (numa_order h).
  split; [apply onlinecpu_run|].
  split; [apply numa_order_perm|].
  split; [apply Permutation_length, numa_order_perm|].
  intros cpu; split.
  - intros Hin.
    apply (Permutation_in _ (numa_order_perm h)) in Hin.
    unfold numa_cpus in Hin; apply in_concat in Hin.
    destruct Hin as (l & Hl & Hc).
    apply in_map_iff in Hl; destruct Hl as (node & <- & Hn).
    exists node; split; [now apply in_numa_nodes | exact Hc].
  - intros (node & Hn & Hc).
    apply (Permutation_in _ (Permutation_sym (numa_order_perm h))).
    unfold numa_cpus; apply in_concat.
    exists (numa_node_to_cpus h node); split; [|exact Hc].
    apply in_map, in_numa_nodes, Hn.
Qed.

Lemma onlinecpu_keeps_every_cpu_witness :
  exists order,
    onlinecpu example_host world0 = (Normal order, world0) /\ In 3 order.
Proof.
  destruct (onlinecpu_keeps_every_cpu example_host world0)
    as (order & Hrun & _ & _ & Hin).
  exists order; split; [exact Hrun|].
  apply Hin; exists 1; split; [vm_compute; split; discriminate|].
  simpl; auto.
Defined.

(** X2. The degenerate topologies: when the highest node index is 0,
    [onlinecpu] returns the CPUs of node 0 in ascending order; when it is
    negative (no node), it returns the empty list. *)
Theorem onlinecpu_single_node (h : host) (w : world) :
  (numa_max_node h = 0 ->
   onlinecpu h w = (Normal (sorted (numa_node_to_cpus h 0)), w)
   /\ StronglySorted Z.le (sorted (numa_node_to_cpus h 0))
   /\ Permutation (numa_node_to_cpus h 0) (sorted (numa_node_to_cpus h 0)))
  /\ (numa_max_node h < 0 -> onlinecpu h w = (Normal [], w)).
Proof.
  split.
  - intros H0; rewrite onlinecpu_run.
    unfold numa_order, numa_nodes; rewrite H0; simpl.
    rewrite app_nil_r.
    split; [reflexivity|].
    split; [apply sorted_ascending | apply sorted_perm].
  - intros Hneg; rewrite onlinecpu_run.
    unfold numa_order, numa_nodes.
    replace (Z.to_nat (numa_max_node h + 1)) with 0%nat by lia.
    reflexivity.
Qed.

Lemma onlinecpu_single_node_witness :
  onlinecpu one_cpu_host world0 = (Normal [0], world0)
  /\ onlinecpu (set_numa example_host (-1) (fun _ => [7])) world0
     = (Normal [], world0).
Proof.
  split.
  - apply (proj1 (onlinecpu_single_node one_cpu_host world0)); reflexivity.
  - apply (proj2 (onlinecpu_single_node
                    (set_numa example_host (-1) (fun _ => [7])) world0)).
    simpl; lia.
Defined.

(** ** How a run can end *)

(** Every run is one of two: it stopped before the loop, on an exception,
    with no affinity-set call; or it went through the query step and the
    reading of N, and is the loop's doing from there. *)
Lemma python3_shape h argv :
  (exists t e,
      python3 h argv = (t, Uncaught e) /\ affinity_calls t = [])
  \/ (exists port a N r0 response,
         list_getitem argv 2 = Ok a
         /\ int_of_str a = Ok N
         /\ python3 h argv
            = (query_events port r0
                 ++ affinity_events
                      (fst (pin_all h response (py_range N) (py_range N))),
               ending_of
                 (snd (pin_all h response (py_range N) (py_range N))))).
Proof.
  destruct (python3_cases h argv)
    as [(t & e & E & Hc & _)
       |(port & a & N & r0 & r1 & response
         & Hport & Hconn & H0 & H1 & Hret & Ha & HN)].
  - left; exists t, e; auto.
  - right; exists port, a, N, r0, response.
    repeat split; try assumption.
    apply (python3_run h argv port a N r0 r1 response); assumption.
Qed.

(** X3. [sys.exit(1)] is dead code: [pin_proc] never leaves through it,
    and no run ends through [sys.exit]. A run either reaches the end of the
    script (status 0) or dies on an exception nobody caught (status 1). *)
Theorem never_exits_through_sys_exit (h : host) :
  (forall pid core w c, fst (pin_proc h pid core w) <> Exiting c)
  /\ (forall argv c, snd (python3 h argv) <> Exited c)
  /\ (forall argv,
         (snd (python3 h argv) = Finished /\ status_of h argv = 0)
         \/ (exists e,
                snd (python3 h argv) = Uncaught e /\ status_of h argv = 1)).
Proof.
  assert (Hrun : forall argv,
             (snd (python3 h argv) = Finished /\ status_of h argv = 0)
             \/ (exists e,
                    snd (python3 h argv) = Uncaught e
                    /\ status_of h argv = 1)).
  { intros argv; unfold status_of.
    destruct (python3_shape h argv)
      as [(t & e & -> & _)|(port & a & N & r0 & response & _ & _ & ->)].
    - right; exists e; auto.
    - cbn [snd].
      assert (Hn := pin_all_never_exits h response (py_range N) (py_range N)).
      destruct (snd (pin_all h response (py_range N) (py_range N)))
        as [[]|e|c]; simpl.
      + left; auto.
      + right; exists e; auto.
      + now destruct (Hn c). }
  split; [|split; [|exact Hrun]].
  - intros pid core w c; rewrite pin_proc_run; cbn [fst].
    destruct (pin_result_cases h pid core) as [[-> _]|(e & _ & ->)];
      [discriminate|].
    destruct (is_ValueError (exn_cls e)); discriminate.
  - intros argv c.
    destruct (Hrun argv) as [[-> _]|(e & -> & _)]; discriminate.
Qed.

(** X4. Exit status 0 means the job was done: N was read from the second
    argument, the run made exactly max(N, 0) affinity-set calls, and psutil
    accepted every one of them. *)
Theorem status_zero_means_all_pinned (h : host) (argv : list string) :
  status_of h argv = 0 ->
  exists a N,
    list_getitem argv 2 = Ok a
    /\ int_of_str a = Ok N
    /\ List.length (affinity_calls (events_of h argv)) = Z.to_nat N
    /\ Forall (fun c => psutil_cpu_affinity h (fst c) (snd c) = Ok tt)
              (affinity_calls (events_of h argv)).
Proof.
  unfold status_of, events_of.
  destruct (python3_shape h argv)
    as [(t & e & -> & _)|(port & a & N & r0 & response & Ha & HN & ->)];
    cbn [fst snd]; [discriminate|].
  intros Hs; exists a, N.
  rewrite affinity_calls_app, affinity_calls_events; simpl.
  assert (Hn := pin_all_never_exits h response (py_range N) (py_range N)).
  assert (Hok := pin_all_ok h response (py_range N) (py_range N)).
  destruct (snd (pin_all h response (py_range N) (py_range N)))
    as [[]|e|c]; simpl in Hs; try discriminate.
  - destruct (Hok eq_refl) as [Hlen Hall].
    rewrite py_range_length in Hlen; auto.
  - now destruct (Hn c).
Qed.

Lemma status_zero_means_all_pinned_witness :
  exists a N,
    list_getitem (example_argv "2") 2 = Ok a
    /\ int_of_str a = Ok N
    /\ List.length (affinity_calls (events_of example_host (example_argv "2")))
       = Z.to_nat N
    /\ Forall (fun c => psutil_cpu_affinity example_host (fst c) (snd c)
                        = Ok tt)
              (affinity_calls (events_of example_host (example_argv "2"))).
Proof.
  apply (status_zero_means_all_pinned example_host (example_argv "2")).
  reflexivity.
Defined.

(** X5. Fail-fast, no rollback: in every run, each affinity-set call
    except the last one was accepted by psutil; only the last call of a run
    can be a refused one. *)
Theorem calls_before_the_last_accepted (h : host) (argv : list string)
    (k : nat) (pid : Z) (cpus : list Z) :
  nth_error (affinity_calls (events_of h argv)) k = Some (pid, cpus) ->
  (S k < List.length (affinity_calls (events_of h argv)))%nat ->
  psutil_cpu_affinity h pid cpus = Ok tt.
Proof.
  intros Hk Hlt.
  destruct (psutil_cpu_affinity h pid cpus) as [[]|e] eqn:Hp; [reflexivity|].
  destruct (refused_call_ends_run h argv k pid cpus e Hk Hp) as (Hlen & _).
  lia.
Qed.

Lemma calls_before_the_last_accepted_witness :
  psutil_cpu_affinity one_cpu_host 111 [0] = Ok tt.
Proof.
  apply (calls_before_the_last_accepted one_cpu_host (example_argv "3")
           0%nat 111 [0]).
  - reflexivity.
  - vm_compute; lia.
Defined.

(** X6. Pinning starts only when querying is over: the events of a run are
    its connection, commands and printing, followed by its affinity-set
    calls and nothing else. *)
Theorem affinity_calls_come_last (h : host) (argv : list string) :
  exists pre,
    events_of h argv
    = pre ++ affinity_events (affinity_calls (events_of h argv))
    /\ affinity_calls pre = []
    /\ commands pre = commands (events_of h argv).
Proof.
  unfold events_of.
  destruct (python3_shape h argv)
    as [(t & e & -> & Hc)|(port & a & N & r0 & response & _ & _ & ->)];
    cbn [fst].
  - exists t; rewrite Hc; simpl; rewrite app_nil_r; auto.
  - exists (query_events port r0).
    rewrite affinity_calls_app, affinity_calls_events.
    rewrite commands_app, commands_affinity_events, app_nil_r.
    repeat split.
Qed.


(** ** The query step and the arguments *)

Lemma list_getitem_short {A} (l : list A) (k : nat) :
  (List.length l <= k)%nat ->
  list_getitem l (Z.of_nat k)
  = Raise (new_exn IndexError "list index out of range").
Proof.
  intros Hlen.
  destruct (list_getitem l (Z.of_nat k)) as [x|e] eqn:E.
  - apply list_getitem_nth in E.
    assert (nth_error l k = None) by now apply nth_error_None.
    congruence.
  - revert E; unfold list_getitem; cbv zeta.
    assert (E0 : (Z.of_nat k <? 0) = false) by (apply Z.ltb_ge; lia).
    assert (E1 : (Z.of_nat (List.length l) <=? Z.of_nat k) = true)
      by (apply Z.leb_le; lia).
    rewrite !E0, E1; simpl; congruence.
Qed.

(** What [int] raises on a string. *)
Lemma int_of_str_error a e :
  int_of_str a = Raise e ->
  e = new_exn ValueError
        ("invalid literal for int() with base 10: '" ++ a ++ "'")%string.
Proof.
  unfold int_of_str; cbv zeta.
  destruct (strip (list_ascii_of_string a)) as [|c r].
  - destruct (digits [] 0 true); congruence.
  - destruct c as [[] [] [] [] [] [] [] []];
      match goal with
      | |- context [match digits ?s ?z ?b with _ => _ end] =>
          destruct (digits s z b)
      end; congruence.
Qed.

Section QueryStep.

Variable h : host.

#[local] Arguments String.append : simpl never.

Ltac run_main :=
  unfold python3, main, bind, lift, QMPQuery, query_cmd, py_print;
  repeat (simpl;
          match goal with
          | H : ?x = _ |- context [flow_of ?x] => rewrite H
          end);
  simpl.

(** X7. Whatever goes wrong in the query step ends the run there, on that
    exception, before any affinity-set call: a refused connection sends no
    command; a failed first command prints nothing; a failed second command
    or a second answer without ['return'] (a [KeyError]) comes after the
    first answer was printed. *)
Theorem query_step_failure (argv : list string) (port : string) :
  list_getitem argv 1 = Ok port ->
  (forall e,
      qmp_connect h ("localhost:" ++ port)%string = Raise e ->
      python3 h argv
      = ([EConnect ("localhost:" ++ port)%string], Uncaught e))
  /\ (forall e,
         qmp_connect h ("localhost:" ++ port)%string = Ok tt ->
         qmp_reply h 0%nat "query-cpus-fast" = Raise e ->
         python3 h argv
         = ([EConnect ("localhost:" ++ port)%string; ECmd "query-cpus-fast"],
            Uncaught e))
  /\ (forall r0 e,
         qmp_connect h ("localhost:" ++ port)%string = Ok tt ->
         qmp_reply h 0%nat "query-cpus-fast" = Ok r0 ->
         qmp_reply h 1%nat "query-cpus-fast" = Raise e ->
         python3 h argv = (query_events port r0, Uncaught e))
  /\ (forall r0 r1 e,
         qmp_connect h ("localhost:" ++ port)%string = Ok tt ->
         qmp_reply h 0%nat "query-cpus-fast" = Ok r0 ->
         qmp_reply h 1%nat "query-cpus-fast" = Ok r1 ->
         getitem_str r1 "return" = Raise e ->
         python3 h argv = (query_events port r0, Uncaught e))
  /\ (forall r0 d,
         qmp_connect h ("localhost:" ++ port)%string = Ok tt ->
         qmp_reply h 0%nat "query-cpus-fast" = Ok r0 ->
         qmp_reply h 1%nat "query-cpus-fast" = Ok (PDict d) ->
         dict_get d "return" = None ->
         python3 h argv
         = (query_events port r0, Uncaught (new_exn KeyError "return"))).
Proof.
  intros Hport.
  split; [|split; [|split; [|split]]].
  - intros e Hconn; run_main; reflexivity.
  - intros e Hconn H0; run_main; reflexivity.
  - intros r0 e Hconn H0 H1; run_main; reflexivity.
  - intros r0 r1 e Hconn H0 H1 Hret; run_main; reflexivity.
  - intros r0 d Hconn H0 H1 Hd.
    run_main; rewrite Hd; reflexivity.
Qed.

(** X8. Without a port on the command line the script does nothing at
    all: it dies on the [IndexError] of [sys.argv[1]] before connecting. *)
Theorem no_port_no_connection (argv : list string) :
  (List.length argv <= 1)%nat ->
  python3 h argv
  = ([], Uncaught (new_exn IndexError "list index out of range")).
Proof.
  intros Hlen.
  assert (Hport := list_getitem_short argv 1 Hlen).
  change (Z.of_nat 1) with 1 in Hport.
  run_main; reflexivity.
Qed.

(** X9. N is read only after the query step: when the second argument is
    missing, or is no integer, the VM has already been queried twice and
    the first answer printed; the run then dies on the [IndexError] of
    [sys.argv[2]], or on the [ValueError] of [int], which is raised outside
    [pin_proc] and so is not handled. No affinity-set call is made. *)
Theorem vcpu_count_read_after_query (argv : list string) (port : string)
    (r0 r1 response : pyval) :
  list_getitem argv 1 = Ok port ->
  qmp_connect h ("localhost:" ++ port)%string = Ok tt ->
  qmp_reply h 0%nat "query-cpus-fast" = Ok r0 ->
  qmp_reply h 1%nat "query-cpus-fast" = Ok r1 ->
  getitem_str r1 "return" = Ok response ->
  ((List.length argv <= 2)%nat ->
   python3 h argv
   = (query_events port r0,
      Uncaught (new_exn IndexError "list index out of range")))
  /\ (forall a e,
         list_getitem argv 2 = Ok a ->
         int_of_str a = Raise e ->
         python3 h argv
         = (query_events port r0,
            Uncaught
              (new_exn ValueError
                 ("invalid literal for int() with base 10: '" ++ a ++ "'")
                 %string))).
Proof.
  intros Hport Hconn H0 H1 Hret; split.
  - intros Hlen.
    assert (Ha := list_getitem_short argv 2 Hlen).
    change (Z.of_nat 2) with 2 in Ha.
    run_main; reflexivity.
  - intros a e Ha HN.
    rewrite <- (int_of_str_error a e HN).
    run_main; reflexivity.
Qed.

Lemma pin_all_first_reply r response o_cpus l :
  pin_all (set_first_reply h r) response o_cpus l
  = pin_all h response o_cpus l.
Proof.
  induction l as [|i l IH]; simpl; [reflexivity|].
  destruct (call_at response o_cpus i) as [[pid core]|e]; [|reflexivity].
  change (pin_result (set_first_reply h r) pid core)
    with (pin_result h pid core).
  now rewrite IH.
Qed.

(** X10. The answer to the first command is printed and otherwise unused:
    had the VM answered it differently, the run would have sent the same
    commands, made the same affinity-set calls and ended the same way. *)
Theorem first_reply_only_printed (argv : list string) (r0 r0' : pyval) :
  qmp_reply h 0%nat "query-cpus-fast" = Ok r0 ->
  affinity_calls (events_of (set_first_reply h (Ok r0')) argv)
  = affinity_calls (events_of h argv)
  /\ commands (events_of (set_first_reply h (Ok r0')) argv)
     = commands (events_of h argv)
  /\ snd (python3 (set_first_reply h (Ok r0')) argv) = snd (python3 h argv)
  /\ (forall port,
         list_getitem argv 1 = Ok port ->
         qmp_connect h ("localhost:" ++ port)%string = Ok tt ->
         In (EStdout r0') (events_of (set_first_reply h (Ok r0')) argv)).
Proof.
  intros H0.
  assert (H0' : qmp_reply (set_first_reply h (Ok r0')) 0%nat "query-cpus-fast"
                = Ok r0') by reflexivity.
  unfold events_of.
  destruct (list_getitem argv 1) as [port|e] eqn:Hport.
  2:{ unfold set_first_reply; run_main; repeat split; discriminate. }
  destruct (qmp_connect h ("localhost:" ++ port)%string) as [[]|e] eqn:Hconn.
  2:{ unfold set_first_reply; run_main; repeat split.
      intros p [= <-]; congruence. }
  assert (Hin : forall t,
             In (EStdout r0')
                ((query_events port r0' ++ t))) by (simpl; auto).
  destruct (qmp_reply h 1%nat "query-cpus-fast") as [r1|e] eqn:H1.
  2:{ unfold set_first_reply; run_main; repeat split.
      intros p [= <-] _; apply (Hin []). }
  destruct (getitem_str r1 "return") as [response|e] eqn:Hret.
  2:{ unfold set_first_reply; run_main; repeat split.
      intros p [= <-] _; apply (Hin []). }
  destruct (list_getitem argv 2) as [a|e] eqn:Ha.
  2:{ unfold set_first_reply; run_main; repeat split.
      intros p [= <-] _; apply (Hin []). }
  destruct (int_of_str a) as [N|e] eqn:HN.
  2:{ unfold set_first_reply; run_main; repeat split.
      intros p [= <-] _; apply (Hin []). }
  rewrite (python3_run h argv port a N r0 r1 response) by assumption.
  rewrite (python3_run (set_first_reply h (Ok r0')) argv port a N r0' r1
             response) by assumption.
  rewrite pin_all_first_reply.
  cbn [fst snd].
  rewrite !affinity_calls_app, !commands_app.
  repeat split.
  intros p _ _; apply Hin.
Qed.

End QueryStep.

Lemma query_step_failure_witness :
  python3 unreachable_host (example_argv "2")
  = ([EConnect "localhost:4444"],
     Uncaught (new_exn ConnectionError "Connection refused"))
  /\ python3 error_reply_host (example_argv "2")
     = (query_events "4444"
          (PDict [("error", PDict [("class", PStr "CommandNotFound")])]),
        Uncaught (new_exn KeyError "return")).
Proof.
  split.
  - apply (proj1 (query_step_failure unreachable_host (example_argv "2")
                    "4444" eq_refl)).
    reflexivity.
  - apply (proj2 (proj2 (proj2 (proj2
             (query_step_failure error_reply_host (example_argv "2")
                "4444" eq_refl))))
             (PDict [("error", PDict [("class", PStr "CommandNotFound")])])
             [("error", PDict [("class", PStr "CommandNotFound")])]);
      reflexivity.
Defined.

Lemma no_port_no_connection_witness :
  python3 example_host ["pin-cpu.py"]
  = ([], Uncaught (new_exn IndexError "list index out of range")).
Proof.
  apply (no_port_no_connection example_host ["pin-cpu.py"]).
  simpl; lia.
Defined.

Lemma vcpu_count_read_after_query_witness :
  python3 example_host (example_argv "two")
  = (query_events "4444" (cpus_fast_reply [111; 222]),
     Uncaught
       (new_exn ValueError "invalid literal for int() with base 10: 'two'")).
Proof.
  apply (proj2 (vcpu_count_read_after_query example_host (example_argv "two")
                  "4444" (cpus_fast_reply [111; 222])
                  (cpus_fast_reply [111; 222])
                  (PList (map (fun t => PDict [("cpu-index", PInt 0);
                                               ("thread-id", PInt t)])
                              [111; 222]))
                  eq_refl eq_refl eq_refl eq_refl eq_refl)
           "two"
           (new_exn ValueError
              "invalid literal for int() with base 10: 'two'"));
    reflexivity.
Defined.

Lemma first_reply_only_printed_witness :
  affinity_calls (events_of (set_first_reply example_host (Ok PNone))
                            (example_argv "2"))
  = affinity_calls (events_of example_host (example_argv "2"))
  /\ commands (events_of (set_first_reply example_host (Ok PNone))
                         (example_argv "2"))
     = commands (events_of example_host (example_argv "2"))
  /\ snd (python3 (set_first_reply example_host (Ok PNone)) (example_argv "2"))
     = snd (python3 example_host (example_argv "2")).
Proof.
  destruct (first_reply_only_printed example_host (example_argv "2")
              (cpus_fast_reply [111; 222]) PNone eq_refl)
    as (Hcalls & Hcmds & Hend & _).
  repeat split; assumption.
Defined.

(** ** Edge cases of the loop *)

(** X11. A zero or negative N pins nothing: once the query step has gone
    through, the loop body never runs and the script ends with status 0. *)
Theorem nonpositive_count_pins_nothing (h : host) (argv : list string)
    (port a : string) (N : Z) (response : pyval) :
  list_getitem argv 1 = Ok port ->
  list_getitem argv 2 = Ok a ->
  int_of_str a = Ok N ->
  N <= 0 ->
  query_ok h port response ->
  affinity_calls (events_of h argv) = []
  /\ snd (python3 h argv) = Finished
  /\ status_of h argv = 0.
Proof.
  intros Hport Ha HN Hneg (Hconn & r0 & r1 & H0 & H1 & Hret).
  unfold status_of, events_of.
  rewrite (python3_run h argv port a N r0 r1 response) by assumption.
  unfold py_range; replace (Z.to_nat N) with 0%nat by lia.
  repeat split.
Qed.

Lemma nonpositive_count_pins_nothing_witness :
  affinity_calls (events_of example_host (example_argv "-3")) = []
  /\ snd (python3 example_host (example_argv "-3")) = Finished
  /\ status_of example_host (example_argv "-3") = 0.
Proof.
  apply (nonpositive_count_pins_nothing example_host (example_argv "-3")
           "4444" "-3" (-3)
           (PList (map (fun t => PDict [("cpu-index", PInt 0);
                                        ("thread-id", PInt t)]) [111; 222])));
    try reflexivity; try lia.
  split; [reflexivity|].
  exists (cpus_fast_reply [111; 222]), (cpus_fast_reply [111; 222]).
  repeat split.
Defined.

(** When line 36 raises at index [k] before calling [pin_proc], the loop
    over [range(N)] is the loop over [range(k)] followed, if it gets that
    far, by that exception. *)
Lemma loop_stops_at h response o N k e :
  Z.of_nat k < N ->
  call_at response o (Z.of_nat k) = Raise e ->
  pin_all h response o (py_range N)
  = match snd (pin_all h response o (py_range (Z.of_nat k))) with
    | Normal _ =>
        (fst (pin_all h response o (py_range (Z.of_nat k))), Raised e)
    | _ => pin_all h response o (py_range (Z.of_nat k))
    end.
Proof.
  intros Hk Hc.
  rewrite (py_range_split k N Hk), pin_all_app.
  destruct (snd (pin_all h response o (py_range (Z.of_nat k))));
    try reflexivity.
  simpl; rewrite Hc; simpl.
  now rewrite app_nil_r.
Qed.

Lemma call_at_ok response N j entry tid :
  getitem_int response (Z.of_nat j) = Ok entry ->
  tid_of entry = Ok tid ->
  Z.of_nat j < N ->
  call_at response (py_range N) (Z.of_nat j) = Ok (tid, Z.of_nat j).
Proof.
  intros He Ht Hj; unfold call_at.
  rewrite He, Ht.
  apply py_range_nth, list_getitem_nth in Hj; rewrite Hj; reflexivity.
Qed.

(** X12. A vCPU record without a usable thread id stops the run before
    its own call: when [response[k]] exists but has no ['thread-id'], or
    one [int] refuses, the exception is raised while the arguments of
    [pin_proc] are computed, outside its [try]; the run makes at most [k]
    affinity-set calls and ends with status 1, and when the [k] records
    before it were served, it has made exactly [k] calls and dies on that
    very exception, the earlier pinnings standing. *)
Theorem bad_entry_stops_run (h : host) (argv : list string)
    (port a : string) (N : Z) (response entry : pyval) (k : nat) (e : exn) :
  list_getitem argv 1 = Ok port ->
  list_getitem argv 2 = Ok a ->
  int_of_str a = Ok N ->
  query_ok h port response ->
  Z.of_nat k < N ->
  getitem_int response (Z.of_nat k) = Ok entry ->
  tid_of entry = Raise e ->
  (List.length (affinity_calls (events_of h argv)) <= k)%nat
  /\ status_of h argv = 1
  /\ ((forall j,
          (j < k)%nat ->
          exists en tid,
            getitem_int response (Z.of_nat j) = Ok en
            /\ tid_of en = Ok tid
            /\ psutil_cpu_affinity h tid [Z.of_nat j] = Ok tt) ->
      snd (python3 h argv) = Uncaught e
      /\ List.length (affinity_calls (events_of h argv)) = k).
Proof.
  intros Hport Ha HN (Hconn & r0 & r1 & H0 & H1 & Hret) Hk He Ht.
  unfold status_of, events_of.
  rewrite (python3_run h argv port a N r0 r1 response) by assumption.
  cbn [fst snd]; rewrite affinity_calls_app, affinity_calls_events.
  simpl (affinity_calls (query_events port r0) ++ _).
  assert (Hc : call_at response (py_range N) (Z.of_nat k) = Raise e)
    by (unfold call_at; now rewrite He, Ht).
  rewrite (loop_stops_at h response (py_range N) N k e Hk Hc).
  assert (Hlen := pin_all_length h response (py_range N)
                    (py_range (Z.of_nat k))).
  rewrite py_range_length, Nat2Z.id in Hlen.
  assert (Hnever := pin_all_never_exits h response (py_range N)
                      (py_range (Z.of_nat k))).
  assert (Hok := pin_all_ok h response (py_range N) (py_range (Z.of_nat k))).
  assert (Hprog := pin_all_progress h response (py_range N)
                     (py_range (Z.of_nat k))).
  destruct (pin_all h response (py_range N) (py_range (Z.of_nat k)))
    as [calls r]; cbn [fst snd] in *.
  split; [|split].
  - destruct r; exact Hlen.
  - destruct r as [[]|e'|c]; simpl; try reflexivity.
    now destruct (Hnever c).
  - intros Hall.
    assert (Hr : r = Normal tt).
    { apply Hprog; intros i Hi.
      apply In_nth_error in Hi; destruct Hi as [j Hj].
      apply nth_error_py_range in Hj; destruct Hj as [-> Hj].
      apply Nat2Z.inj_lt in Hj.
      destruct (Hall j Hj) as (en & tid & Hen & Htid & Hp).
      exists tid, (Z.of_nat j); split; [|exact Hp].
      apply call_at_ok with (entry := en); auto; lia. }
    subst r; split; [reflexivity|].
    destruct (Hok eq_refl) as [E _].
    cbn [fst]; now rewrite E, py_range_length, Nat2Z.id.
Qed.

Lemma bad_entry_stops_run_witness :
  snd (python3 bad_entry_host (example_argv "3"))
  = Uncaught (new_exn KeyError "thread-id")
  /\ List.length (affinity_calls (events_of bad_entry_host (example_argv "3")))
     = 1%nat.
Proof.
  apply (proj2 (proj2
           (bad_entry_stops_run bad_entry_host (example_argv "3") "4444" "3" 3
              (PList [PDict [("thread-id", PInt 111)];
                      PDict [("cpu-index", PInt 1)];
                      PDict [("thread-id", PInt 333)]])
              (PDict [("cpu-index", PInt 1)]) 1
              (new_exn KeyError "thread-id")
              eq_refl eq_refl eq_refl
              (conj eq_refl
                 (ex_intro _ _ (ex_intro _ _
                    (conj eq_refl (conj eq_refl eq_refl)))))
              eq_refl eq_refl eq_refl))).
  intros [|j] Hj; [|lia].
  exists (PDict [("thread-id", PInt 111)]), 111; repeat split.
Defined.

Lemma call_at_not_list response o i :
  (forall l, response <> PList l) ->
  exists e, call_at response o i = Raise e.
Proof.
  intros Hnl; unfold call_at.
  destruct response as [| b | z | s | l | d | name | name]; simpl;
    try (eexists; reflexivity).
  - destruct (list_getitem (list_ascii_of_string s) i); simpl;
      eexists; reflexivity.
  - now destruct (Hnl l).
Qed.

(** X13. When the ['return'] field of the answer is not a list and N >= 1,
    line 36 fails at index 0 (a [KeyError] on a dict, an [IndexError] on an
    empty string, a [TypeError] on anything else, a non-empty string
    included): the run makes no affinity-set call and ends with status 1. *)
Theorem reply_not_a_list (h : host) (argv : list string)
    (port a : string) (N : Z) (response : pyval) :
  list_getitem argv 1 = Ok port ->
  list_getitem argv 2 = Ok a ->
  int_of_str a = Ok N ->
  1 <= N ->
  query_ok h port response ->
  (forall l, response <> PList l) ->
  affinity_calls (events_of h argv) = []
  /\ status_of h argv = 1
  /\ exists e,
       snd (python3 h argv) = Uncaught e
       /\ call_at response (py_range N) 0 = Raise e
       /\ (exn_cls e = KeyError
           \/ exn_cls e = IndexError
           \/ exn_cls e = TypeError).
Proof.
  intros Hport Ha HN Hpos (Hconn & r0 & r1 & H0 & H1 & Hret) Hnl.
  unfold status_of, events_of.
  rewrite (python3_run h argv port a N r0 r1 response) by assumption.
  destruct (call_at_not_list response (py_range N) 0 Hnl) as [e Hc].
  assert (Hk : Z.of_nat 0 < N) by (simpl; lia).
  rewrite (loop_stops_at h response (py_range N) N 0 e Hk Hc).
  simpl; repeat split.
  exists e; repeat split; [exact Hc|].
  revert Hc; unfold call_at.
  destruct response as [| b | z | s | l | d | name | name]; simpl;
    try (intros [= <-]; simpl; auto).
  - destruct (list_getitem (list_ascii_of_string s) 0); simpl;
      intros [= <-]; simpl; auto.
  - now destruct (Hnl l).
Qed.

Lemma reply_not_a_list_witness :
  affinity_calls (events_of string_reply_host (example_argv "2")) = []
  /\ status_of string_reply_host (example_argv "2") = 1.
Proof.
  destruct (reply_not_a_list string_reply_host (example_argv "2")
              "4444" "2" 2 (PStr "abc") eq_refl eq_refl eq_refl)
    as (Hcalls & Hstatus & _).
  - lia.
  - split; [reflexivity|].
    exists (PDict [("return", PStr "abc")]), (PDict [("return", PStr "abc")]).
    repeat split.
  - intros l; discriminate.
  - split; assumption.
Defined.

(** ** Asking for more vCPUs *)

Lemma py_range_le N N' :
  N <= N' -> exists more, py_range N' = py_range N ++ more.
Proof.
  intros Hle; unfold py_range.
  exists (map Z.of_nat (seq (Z.to_nat N) (Z.to_nat N' - Z.to_nat N))).
  rewrite <- map_app, <- seq_app.
  do 2 f_equal; lia.
Qed.

(** Over indices below N, a longer core list gives the same cores. *)
Lemma pin_all_longer_core_list h response N N' l :
  N <= N' ->
  (forall i, In i l -> In i (py_range N)) ->
  pin_all h response (py_range N') l = pin_all h response (py_range N) l.
Proof.
  intros Hle; induction l as [|i l IH]; intros Hin; simpl; [reflexivity|].
  assert (Hc : call_at response (py_range N') i
               = call_at response (py_range N) i).
  { destruct (In_nth_error _ _ (Hin i (or_introl eq_refl))) as [k Hk].
    apply nth_error_py_range in Hk; destruct Hk as [-> Hk].
    unfold call_at.
    assert (E : forall M, Z.of_nat k < M ->
                list_getitem (py_range M) (Z.of_nat k) = Ok (Z.of_nat k))
      by (intros M HM; now apply list_getitem_nth, py_range_nth).
    rewrite (E N Hk), (E N') by lia; reflexivity. }
  rewrite Hc, IH by (intros j Hj; apply Hin; now right).
  reflexivity.
Qed.

(** The loop for N' >= N starts as the loop for N does. *)
Lemma pin_all_more h response N N' :
  N <= N' ->
  exists q,
    pin_all h response (py_range N') (py_range N')
    = match snd (pin_all h response (py_range N) (py_range N)) with
      | Normal _ =>
          (fst (pin_all h response (py_range N) (py_range N)) ++ fst q, snd q)
      | _ => pin_all h response (py_range N) (py_range N)
      end.
Proof.
  intros Hle.
  destruct (py_range_le N N' Hle) as [more Hmore].
  assert (E : forall o,
             pin_all h response o (py_range N')
             = pin_all h response o (py_range N ++ more))
    by (intros o; now rewrite Hmore).
  rewrite E, pin_all_app.
  rewrite (pin_all_longer_core_list h response N N' (py_range N) Hle)
    by auto.
  exists (pin_all h response (py_range N') more); reflexivity.
Qed.

Lemma query_ok_or_not h port :
  (exists response, query_ok h port response)
  \/ (forall response, ~ query_ok h port response).
Proof.
  unfold query_ok.
  destruct (qmp_connect h ("localhost:" ++ port)%string) as [[]|e];
    [|right; intros r [Hc _]; discriminate].
  destruct (qmp_reply h 0%nat "query-cpus-fast") as [r0|e];
    [|right; intros r (_ & x & y & Hx & _); discriminate].
  destruct (qmp_reply h 1%nat "query-cpus-fast") as [r1|e];
    [|right; intros r (_ & x & y & _ & Hy & _); discriminate].
  destruct (getitem_str r1 "return") as [response|e] eqn:Hret.
  - left; exists response; split; [reflexivity|].
    exists r0, r1; auto.
  - right; intros r (_ & x & y & _ & [= <-] & Hr); congruence.
Qed.

(** A run whose query step fails makes no affinity-set call and dies on
    an exception. *)
Lemma run_without_query h argv port :
  list_getitem argv 1 = Ok port ->
  (forall response, ~ query_ok h port response) ->
  affinity_calls (events_of h argv) = []
  /\ exists e, snd (python3 h argv) = Uncaught e.
Proof.
  intros Hport Hno; unfold events_of.
  destruct (python3_cases h argv)
    as [(t & e & -> & Hc & _)
       |(port' & a & N & r0 & r1 & response
         & Hport' & Hconn & H0 & H1 & Hret & _)].
  - split; [exact Hc | exists e; reflexivity].
  - assert (port' = port) by congruence; subst port'.
    destruct (Hno response).
    split; [exact Hconn | exists r0, r1; auto].
Qed.

(** X14. Asking for more vCPUs only adds to the end: on the same host and
    port, the affinity-set calls of a run with N are the first calls of a
    run with any N' >= N, and if the larger run ends normally so does the
    smaller one. *)
Theorem larger_count_extends_pinning (h : host) (argv argv' : list string)
    (port a a' : string) (N N' : Z) :
  list_getitem argv 1 = Ok port ->
  list_getitem argv' 1 = Ok port ->
  list_getitem argv 2 = Ok a ->
  int_of_str a = Ok N ->
  list_getitem argv' 2 = Ok a' ->
  int_of_str a' = Ok N' ->
  N <= N' ->
  (exists more,
      affinity_calls (events_of h argv')
      = affinity_calls (events_of h argv) ++ more)
  /\ (snd (python3 h argv') = Finished -> snd (python3 h argv) = Finished).
Proof.
  intros Hport Hport' Ha HN Ha' HN' Hle.
  destruct (query_ok_or_not h port)
    as [(response & Hconn & r0 & r1 & H0 & H1 & Hret)|Hno].
  2:{ destruct (run_without_query h argv port Hport Hno) as [-> _].
      destruct (run_without_query h argv' port Hport' Hno) as [-> [e ->]].
      split; [exists []; reflexivity | discriminate]. }
  unfold events_of.
  rewrite (python3_run h argv port a N r0 r1 response) by assumption.
  rewrite (python3_run h argv' port a' N' r0 r1 response) by assumption.
  cbn [fst snd]; rewrite !affinity_calls_app, !affinity_calls_events.
  destruct (pin_all_more h response N N' Hle) as [q ->].
  assert (Hnever := pin_all_never_exits h response (py_range N) (py_range N)).
  destruct (pin_all h response (py_range N) (py_range N))
    as [calls [[]|e|c]]; cbn [fst snd].
  - split; [exists (fst q) |]; reflexivity.
  - split; [exists []; now rewrite app_nil_r | discriminate].
  - now destruct (Hnever c).
Qed.

Lemma larger_count_extends_pinning_witness :
  exists more,
    affinity_calls (events_of one_cpu_host (example_argv "3"))
    = affinity_calls (events_of one_cpu_host (example_argv "1")) ++ more.
Proof.
  assert (Hle : 1 <= 3) by lia.
  apply (proj1 (larger_count_extends_pinning one_cpu_host
                  (example_argv "1") (example_argv "3")
                  "4444" "1" "3" 1 3
                  eq_refl eq_refl eq_refl eq_refl eq_refl eq_refl Hle)).
Defined.

(** * Which thread gets which core *)

(** ** Every vCPU in turn *)

(** When the records before [i] were served, the loop over [range(N)]
    makes its [i]-th call for the thread of record [i], on core [i]. *)
Lemma pin_all_serves h response N i tid :
  Z.of_nat i < N ->
  (forall j,
      (j < i)%nat ->
      exists en t,
        getitem_int response (Z.of_nat j) = Ok en
        /\ tid_of en = Ok t
        /\ psutil_cpu_affinity h t [Z.of_nat j] = Ok tt) ->
  (exists en,
      getitem_int response (Z.of_nat i) = Ok en /\ tid_of en = Ok tid) ->
  nth_error (fst (pin_all h response (py_range N) (py_range N))) i
  = Some (tid, [Z.of_nat i]).
Proof.
  intros Hi Hbefore (en & Hen & Htid).
  assert (E : forall o,
             pin_all h response o (py_range N)
             = pin_all h response o
                 (py_range (Z.of_nat i)
                    ++ Z.of_nat i
                       :: map Z.of_nat (seq (S i) (Z.to_nat N - S i))))
    by (intros o; now rewrite <- (py_range_split i N Hi)).
  rewrite E, pin_all_app.
  assert (Hr : snd (pin_all h response (py_range N) (py_range (Z.of_nat i)))
               = Normal tt).
  { apply pin_all_progress; intros x Hx.
    apply In_nth_error in Hx; destruct Hx as [j Hj].
    apply nth_error_py_range in Hj; destruct Hj as [-> Hj].
    apply Nat2Z.inj_lt in Hj.
    destruct (Hbefore j Hj) as (ej & t & Hej & Ht & Hp).
    exists t, (Z.of_nat j); split; [|exact Hp].
    apply call_at_ok with (entry := ej); auto; lia. }
  destruct (pin_all_ok _ _ _ _ Hr) as [Hlen _].
  rewrite py_range_length, Nat2Z.id in Hlen.
  rewrite Hr; cbn [fst].
  rewrite nth_error_app2 by lia.
  rewrite Hlen, Nat.sub_diag; simpl.
  rewrite (call_at_ok response N i en tid Hen Htid Hi).
  destruct (pin_result h tid (Z.of_nat i)) as [[]|e|c]; simpl;
    try reflexivity.
  now destruct (pin_all h response (py_range N)
                  (map Z.of_nat (seq (S i) (Z.to_nat N - S i)))).
Qed.

(** When every record below N is served, the loop makes N calls and ends
    normally. *)
Lemma pin_all_serves_all h response N :
  (forall j,
      Z.of_nat j < N ->
      exists en t,
        getitem_int response (Z.of_nat j) = Ok en
        /\ tid_of en = Ok t
        /\ psutil_cpu_affinity h t [Z.of_nat j] = Ok tt) ->
  snd (pin_all h response (py_range N) (py_range N)) = Normal tt
  /\ List.length (fst (pin_all h response (py_range N) (py_range N)))
     = Z.to_nat N.
Proof.
  intros Hall.
  assert (Hr : snd (pin_all h response (py_range N) (py_range N))
               = Normal tt).
  { apply pin_all_progress; intros x Hx.
    apply In_nth_error in Hx; destruct Hx as [j Hj].
    apply nth_error_py_range in Hj; destruct Hj as [-> Hj].
    destruct (Hall j Hj) as (ej & t & Hej & Ht & Hp).
    exists t, (Z.of_nat j); split; [|exact Hp].
    now apply call_at_ok with (entry := ej). }
  split; [exact Hr|].
  destruct (pin_all_ok _ _ _ _ Hr) as [Hlen _].
  now rewrite Hlen, py_range_length.
Qed.

(** The same, of a run whose query step goes through. *)
Lemma run_serves h argv port a N response i tid :
  list_getitem argv 1 = Ok port ->
  list_getitem argv 2 = Ok a ->
  int_of_str a = Ok N ->
  query_ok h port response ->
  Z.of_nat i < N ->
  (forall j,
      (j < i)%nat ->
      exists en t,
        getitem_int response (Z.of_nat j) = Ok en
        /\ tid_of en = Ok t
        /\ psutil_cpu_affinity h t [Z.of_nat j] = Ok tt) ->
  (exists en,
      getitem_int response (Z.of_nat i) = Ok en /\ tid_of en = Ok tid) ->
  nth_error (affinity_calls (events_of h argv)) i = Some (tid, [Z.of_nat i]).
Proof.
  intros Hport Ha HN (Hconn & r0 & r1 & H0 & H1 & Hret) Hi Hbefore Hen.
  unfold events_of.
  rewrite (python3_run h argv port a N r0 r1 response) by assumption.
  cbn [fst]; rewrite affinity_calls_app, affinity_calls_events.
  now apply pin_all_serves.
Qed.

(** C3. On every host, whatever its NUMA topology, the core handed to the
    [i]-th vCPU is [i]. Every affinity-set call a run makes is, at position
    [k], for the thread of record [k] of the answer and on the single core
    [k]; and the call is made: when the query step goes through and the
    records before [i] were served, the [i]-th call of the run restricts
    the thread of record [i] to core [i]. The core list of line 33 has [i]
    at index [i], and no part of the run depends on the NUMA fields of the
    host, [onlinecpu] being called nowhere in lines 30-36. *)
Theorem core_of_vcpu_is_its_index (h : host) (argv : list string) :
  (forall k pid cpus,
      nth_error (affinity_calls (events_of h argv)) k = Some (pid, cpus) ->
      cpus = [Z.of_nat k]
      /\ exists r1 response entry,
           qmp_reply h 1%nat "query-cpus-fast" = Ok r1
           /\ getitem_str r1 "return" = Ok response
           /\ getitem_int response (Z.of_nat k) = Ok entry
           /\ tid_of entry = Ok pid)
  /\ (forall port a N response i tid,
         list_getitem argv 1 = Ok port ->
         list_getitem argv 2 = Ok a ->
         int_of_str a = Ok N ->
         query_ok h port response ->
         Z.of_nat i < N ->
         (forall j,
             (j < i)%nat ->
             exists en t,
               getitem_int response (Z.of_nat j) = Ok en
               /\ tid_of en = Ok t
               /\ psutil_cpu_affinity h t [Z.of_nat j] = Ok tt) ->
         (exists en,
             getitem_int response (Z.of_nat i) = Ok en
             /\ tid_of en = Ok tid) ->
         nth_error (affinity_calls (events_of h argv)) i
         = Some (tid, [Z.of_nat i]))
  /\ (forall N i,
         0 <= i < N ->
         list_getitem (map (fun x : Z => x) (py_range N)) i = Ok i)
  /\ (forall max_node cpus,
         python3 (set_numa h max_node cpus) argv = python3 h argv).
Proof.
  split; [|split; [|split]].
  - intros k pid cpus Hk.
    destruct (affinity_calls_of_run h argv)
      as [E|(port & a & N & r1 & response & _ & _ & _ & H1 & Hret & E)];
      rewrite E in Hk.
    + destruct k; discriminate.
    + apply pin_all_range_nth in Hk.
      destruct Hk as (Hc & _ & entry & He & Ht).
      split; [exact Hc|].
      exists r1, response, entry; auto.
  - intros port a N response i tid Hport Ha HN Hq Hi Hbefore Hen.
    now apply (run_serves h argv port a N response i tid).
  - intros N i Hi.
    rewrite o_cpus_range.
    rewrite <- (Z2Nat.id i) by lia.
    apply list_getitem_nth, py_range_nth; lia.
  - reflexivity.
Qed.

Lemma core_of_vcpu_is_its_index_witness :
  nth_error (affinity_calls (events_of example_host (example_argv "2"))) 1
  = Some (222, [1])
  /\ nth 1 (numa_order example_host) 0 = 2.
Proof.
  split; [|reflexivity].
  apply (proj1 (proj2 (core_of_vcpu_is_its_index example_host
                         (example_argv "2")))
           "4444" "2" 2
           (PList (map (fun t => PDict [("cpu-index", PInt 0);
                                        ("thread-id", PInt t)]) [111; 222]))
           1%nat 222 eq_refl eq_refl eq_refl).
  - split; [reflexivity|].
    exists (cpus_fast_reply [111; 222]), (cpus_fast_reply [111; 222]).
    repeat split.
  - simpl; lia.
  - intros [|j] Hj; [|lia].
    exists (PDict [("cpu-index", PInt 0); ("thread-id", PInt 111)]), 111.
    repeat split.
  - exists (PDict [("cpu-index", PInt 0); ("thread-id", PInt 222)]).
    split; reflexivity.
Defined.

(** ** The two arguments *)

(** C10. The first argument is the port: the run connects once, to
    [localhost] on that port. The second is the number N of vCPUs to pin:
    every affinity-set call is for an index [k] in 0..N-1 and the thread of
    record [k] of the answer, so no more than N calls are made; and when
    the query step goes through and the N first records are served, the
    run makes exactly N calls, the [i]-th restricting the thread of record
    [i] to core [i], and ends normally. *)
Theorem port_and_vcpu_count (h : host) (argv : list string)
    (port a : string) (N : Z) :
  list_getitem argv 1 = Ok port ->
  list_getitem argv 2 = Ok a ->
  int_of_str a = Ok N ->
  (exists t,
      events_of h argv = EConnect ("localhost:" ++ port)%string :: t
      /\ forall addr, ~ In (EConnect addr) t)
  /\ (List.length (affinity_calls (events_of h argv)) <= Z.to_nat N)%nat
  /\ (forall k pid cpus,
         nth_error (affinity_calls (events_of h argv)) k = Some (pid, cpus) ->
         0 <= Z.of_nat k < N
         /\ exists r1 response entry,
              qmp_reply h 1%nat "query-cpus-fast" = Ok r1
              /\ getitem_str r1 "return" = Ok response
              /\ getitem_int response (Z.of_nat k) = Ok entry
              /\ tid_of entry = Ok pid)
  /\ (forall response,
         query_ok h port response ->
         (forall j,
             Z.of_nat j < N ->
             exists en t,
               getitem_int response (Z.of_nat j) = Ok en
               /\ tid_of en = Ok t
               /\ psutil_cpu_affinity h t [Z.of_nat j] = Ok tt) ->
         List.length (affinity_calls (events_of h argv)) = Z.to_nat N
         /\ snd (python3 h argv) = Finished
         /\ (forall i en t,
                Z.of_nat i < N ->
                getitem_int response (Z.of_nat i) = Ok en ->
                tid_of en = Ok t ->
                nth_error (affinity_calls (events_of h argv)) i
                = Some (t, [Z.of_nat i]))).
Proof.
  intros Hport Ha HN.
  split; [|split; [|split]].
  - unfold events_of.
    destruct (python3_cases h argv)
      as [(t & e & -> & _ & _ & _ & _ & Hc)
         |(port' & a' & N' & r0 & r1 & response
           & Hport' & Hconn & H0 & H1 & Hret & Ha' & HN')].
    + exact (Hc port Hport).
    + rewrite (python3_run h argv port' a' N' r0 r1 response) by assumption.
      assert (port' = port) by congruence; subst port'.
      simpl; eexists; split; [reflexivity|].
      intros addr [H|[H|[H|H]]]; try discriminate.
      exact (no_connect_in_affinity_events _ _ H).
  - destruct (affinity_calls_of_run h argv)
      as [E|(port' & a' & N' & r1 & response & _ & Ha' & HN' & _ & _ & E)];
      rewrite E; [simpl; lia|].
    assert (a' = a) by congruence; subst a'.
    assert (N' = N) by congruence; subst N'.
    rewrite <- py_range_length; apply pin_all_length.
  - intros k pid cpus Hk.
    destruct (affinity_calls_of_run h argv)
      as [E|(port' & a' & N' & r1 & response & _ & Ha' & HN' & H1 & Hret & E)];
      rewrite E in Hk; [destruct k; discriminate|].
    assert (a' = a) by congruence; subst a'.
    assert (N' = N) by congruence; subst N'.
    apply pin_all_range_nth in Hk.
    destruct Hk as (_ & Hlt & entry & He & Ht).
    split; [lia|].
    exists r1, response, entry; auto.
  - intros response Hq Hall.
    split; [|split].
    + destruct Hq as (Hconn & r0 & r1 & H0 & H1 & Hret).
      unfold events_of.
      rewrite (python3_run h argv port a N r0 r1 response) by assumption.
      cbn [fst]; rewrite affinity_calls_app, affinity_calls_events.
      apply (pin_all_serves_all h response N Hall).
    + destruct Hq as (Hconn & r0 & r1 & H0 & H1 & Hret).
      rewrite (python3_run h argv port a N r0 r1 response) by assumption.
      cbn [snd].
      now rewrite (proj1 (pin_all_serves_all h response N Hall)).
    + intros i en t Hi Hen Ht.
      apply (run_serves h argv port a N response i t); auto.
      * intros j Hj; apply Hall; lia.
      * exists en; auto.
Qed.

Lemma port_and_vcpu_count_witness :
  (exists t,
      events_of example_host (example_argv "2")
      = EConnect "localhost:4444" :: t
      /\ forall addr, ~ In (EConnect addr) t)
  /\ List.length (affinity_calls (events_of example_host (example_argv "2")))
     = 2%nat
  /\ snd (python3 example_host (example_argv "2")) = Finished
  /\ nth_error (affinity_calls (events_of example_host (example_argv "2"))) 1
     = Some (222, [1]).
Proof.
  pose proof (port_and_vcpu_count example_host (example_argv "2")
                "4444" "2" 2 eq_refl eq_refl eq_refl)
    as (Hconn & _ & _ & Hpin).
  split; [exact Hconn|].
  destruct (Hpin (PList (map (fun t => PDict [("cpu-index", PInt 0);
                                              ("thread-id", PInt t)])
                             [111; 222])))
    as (Hlen & Hend & Hnth).
  - split; [reflexivity|].
    exists (cpus_fast_reply [111; 222]), (cpus_fast_reply [111; 222]).
    repeat split.
  - intros [|[|j]] Hj; [| |simpl in Hj; lia].
    + exists (PDict [("cpu-index", PInt 0); ("thread-id", PInt 111)]), 111.
      repeat split.
    + exists (PDict [("cpu-index", PInt 0); ("thread-id", PInt 222)]), 222.
      repeat split.
  - split; [exact Hlen|]; split; [exact Hend|].
    apply (Hnth 1%nat
             (PDict [("cpu-index", PInt 0); ("thread-id", PInt 222)]) 222);
      [simpl; lia | reflexivity | reflexivity].
Defined.

(** ** A refused core *)

Lemma traceback_self e : In e (traceback e).
Proof.
  destruct e as [c m [e'|]]; simpl; [|now left].
  apply in_or_app; right; now left.
Qed.

Lemma last_of_calls {A} (l : list A) (i : nat) (x : A) :
  List.length l = S i ->
  nth_error l i = Some x ->
  l = firstn i l ++ [x].
Proof.
  revert i; induction l as [|y l IH]; intros i Hlen Hn; [discriminate|].
  destruct i as [|i]; simpl in *.
  - injection Hn as ->.
    destruct l; [reflexivity | discriminate].
  - f_equal; apply IH; [lia | exact Hn].
Qed.

(** C4. When the affinity-set call for vCPU index [i] is refused with a
    [ValueError] (a core id the host does not have), the run stops there:
    that call is its last event, so no call is made for an index above [i];
    the [ValueError] is shown on the diagnostic stream, in the traceback of
    the exception the run dies on; the exit status is 1; and the calls made
    before it were all accepted and are not undone. *)
Theorem invalid_core_ends_run (h : host) (argv : list string)
    (i : nat) (pid : Z) (cpus : list Z) (e : exn) :
  nth_error (affinity_calls (events_of h argv)) i = Some (pid, cpus) ->
  psutil_cpu_affinity h pid cpus = Raise e ->
  is_ValueError (exn_cls e) = true ->
  In e (diagnostic h argv)
  /\ status_of h argv = 1
  /\ List.length (affinity_calls (events_of h argv)) = S i
  /\ (exists t, events_of h argv = t ++ [EAffinity pid cpus])
  /\ (forall k p c,
         nth_error (affinity_calls (events_of h argv)) k = Some (p, c) ->
         (k <= i)%nat
         /\ ((k < i)%nat -> psutil_cpu_affinity h p c = Ok tt)).
Proof.
  intros Hi Hp Hv.
  destruct (refused_call_ends_run h argv i pid cpus e Hi Hp)
    as (Hlen & _ & Hend).
  rewrite Hv in Hend.
  split; [|split; [|split; [exact Hlen|split]]].
  - unfold diagnostic; rewrite Hend; simpl.
    apply in_or_app; left; apply traceback_self.
  - unfold status_of; now rewrite Hend.
  - assert (Hlast := last_of_calls _ i _ Hlen Hi).
    revert Hlast; unfold events_of.
    destruct (python3_shape h argv)
      as [(t & e0 & -> & Hc)|(port & a & N & r0 & response & _ & _ & ->)];
      cbn [fst].
    + rewrite Hc; destruct i; discriminate.
    + rewrite affinity_calls_app, affinity_calls_events.
      change (affinity_calls (query_events port r0))
        with (@nil (Z * list Z)).
      rewrite app_nil_l; intros Hlast.
      exists (query_events port r0
                ++ affinity_events
                     (firstn i (fst (pin_all h response (py_range N)
                                       (py_range N))))).
      rewrite Hlast at 1.
      unfold affinity_events; rewrite map_app, app_assoc; reflexivity.
  - intros k p c Hk.
    assert (Hkl : (k < S i)%nat)
      by (rewrite <- Hlen; apply nth_error_Some; congruence).
    split; [lia|].
    intros Hlt.
    destruct (psutil_cpu_affinity h p c) as [[]|e'] eqn:Hpc; [reflexivity|].
    destruct (refused_call_ends_run h argv k p c e' Hk Hpc) as (Hlen' & _).
    lia.
Qed.

Lemma invalid_core_ends_run_witness :
  In (new_exn ValueError "invalid CPU number 1")
     (diagnostic one_cpu_host (example_argv "3"))
  /\ status_of one_cpu_host (example_argv "3") = 1
  /\ List.length (affinity_calls (events_of one_cpu_host (example_argv "3")))
     = 2%nat.
Proof.
  pose proof (invalid_core_ends_run one_cpu_host (example_argv "3")
                1%nat 222 [1] (new_exn ValueError "invalid CPU number 1")
                eq_refl eq_refl eq_refl)
    as (Hd & Hs & Hl & _).
  repeat split; assumption.
Defined.
